(** * cbf.obstacles.obstacles: 2D obstacles for control barrier functions

    A shallow embedding of [src/cbf/obstacles/obstacles.py] and the
    verification of its specification.

    Conventions of the embedding.
    - Python numbers are idealised as real numbers ([R]); [np.cos] and
      [np.sin] are [cos] and [sin], [x**2] is [x ^ 2], [/] is real
      division.  Statements that depend on the value of a quotient assume a
      non-zero divisor.
    - A method that can raise returns a [res]; a method that mutates [self]
      takes the object and returns the object after the call, together with
      the outcome of the call.
    - Objects held by an [ObstacleList2D] live in a heap and the mapping
      stores their addresses, so that identity of instances is observable. *)

From Stdlib Require Import String Reals Lra Lia ZArith Bool PeanoNat List.
Import ListNotations.


(** ** Exceptions and outcomes *)

Inductive exn : Type :=
| TypeError
| NameError
| AttributeError
| KeyError
| IndexError
| RuntimeError.

Inductive res (A : Type) : Type :=
| Ok (v : A)
| Raise (e : exn).

Arguments Ok {A} v.
Arguments Raise {A} e.

Definition res_bind {A B : Type} (m : res A) (k : A -> res B) : res B :=
  match m with
  | Ok v => k v
  | Raise e => Raise e
  end.

(** A computation over a mutable state [S]: the state after the call and
    either the returned value or the exception that escaped. *)
Definition M (S A : Type) : Type := S -> S * res A.

Definition ret {S A : Type} (v : A) : M S A := fun s => (s, Ok v).
Definition raise {S A : Type} (e : exn) : M S A := fun s => (s, Raise e).
Definition bind {S A B : Type} (m : M S A) (k : A -> M S B) : M S B :=
  fun s =>
    match m s with
    | (s', Ok v) => k v s'
    | (s', Raise e) => (s', Raise e)
    end.
Definition get {S : Type} : M S S := fun s => (s, Ok s).
Definition put {S : Type} (s' : S) : M S unit := fun _ => (s', Ok tt).
Definition lift {S A : Type} (r : res A) : M S A := fun s => (s, r).

Declare Scope res_scope.
Delimit Scope res_scope with res.
Declare Scope M_scope.
Delimit Scope M_scope with M.

Notation "x <- m ;; k" := (res_bind m (fun x => k))
  (at level 61, m at next level, right associativity) : res_scope.
Notation "m ;; k" := (res_bind m (fun _ => k))
  (at level 61, right associativity) : res_scope.
Notation "x <- m ;; k" := (bind m (fun x => k))
  (at level 61, m at next level, right associativity) : M_scope.
Notation "m ;; k" := (bind m (fun _ => k))
  (at level 61, right associativity) : M_scope.

(** The number a call returned; only used where the call is known to
    return. *)
Definition returned (r : res R) : R :=
  match r with
  | Ok v => v
  | Raise _ => 0%R
  end.

(** ** euclid.Vector2 and argument values *)

Module Vector2.
Record t : Type := mk { x : R; y : R }.
End Vector2.

(** A Python value passed where the code checks [isinstance(_, Vector2)]. *)
Inductive value : Type :=
| Vec (v : Vector2.t)
| NotVec.

Definition isinstance_Vector2 (p : value) : bool :=
  match p with
  | Vec _ => true
  | NotVec => false
  end.

(** Reading the attributes [p.x], [p.y]. *)
Definition attrs (p : value) : res Vector2.t :=
  match p with
  | Vec v => Ok v
  | NotVec => Raise AttributeError
  end.

(** A cvxopt column vector is the list of its entries, a dense matrix the
    list of its rows. *)
Definition matrix_zeros (n : nat) : list R := repeat 0%R n.
Definition matrix_zeros2 (n m : nat) : list (list R) := repeat (repeat 0%R m) n.

(** ** class Obstacle2DBase *)

Module Obstacle2DBase.

Definition require_Vector2 (p : value) : res unit :=
  if negb (isinstance_Vector2 p) then Raise TypeError else Ok tt.

Definition evaluate (p : value) : res unit := require_Vector2 p.

Definition gradient (p : value) : res (list R) :=
  (require_Vector2 p ;; Ok (matrix_zeros 3))%res.

Definition f (p : value) : res R := (require_Vector2 p ;; Ok 0%R)%res.
Definition dx (p : value) : res R := (require_Vector2 p ;; Ok 0%R)%res.
Definition dy (p : value) : res R := (require_Vector2 p ;; Ok 0%R)%res.
Definition dtheta (p : value) : res R := (require_Vector2 p ;; Ok 0%R)%res.

Definition updateCoords (xy : value) : res unit := require_Vector2 xy.

End Obstacle2DBase.

(** ** carla.BoundingBox, as far as the code reads it *)

Module BoundingBox.
Record t : Type := mk {
  extent_x : R;
  extent_y : R;
  location_x : R;
  location_y : R;
  rotation_yaw : R
}.
End BoundingBox.

(** ** class Ellipse2D *)

Module Ellipse2D.

Open Scope R_scope.

Record t : Type := mk {
  center : Vector2.t;
  theta : R;
  a : R;
  b : R;
  buffer : R;
  BUFFER_FLAG : bool
}.

Definition set_center (c : Vector2.t) (self : t) : t :=
  mk c (theta self) (a self) (b self) (buffer self) (BUFFER_FLAG self).
Definition set_theta (th : R) (self : t) : t :=
  mk (center self) th (a self) (b self) (buffer self) (BUFFER_FLAG self).
Definition set_a (v : R) (self : t) : t :=
  mk (center self) (theta self) v (b self) (buffer self) (BUFFER_FLAG self).
Definition set_b (v : R) (self : t) : t :=
  mk (center self) (theta self) (a self) v (buffer self) (BUFFER_FLAG self).
Definition set_buffer (v : R) (self : t) : t :=
  mk (center self) (theta self) (a self) (b self) v (BUFFER_FLAG self).
Definition set_BUFFER_FLAG (fl : bool) (self : t) : t :=
  mk (center self) (theta self) (a self) (b self) (buffer self) fl.

(** [Ellipse2D(a, b, center, theta, buffer)]; the defaults are
    [default_center], [default_theta] and [default_buffer]. *)
Definition default_center : value := Vec (Vector2.mk 0 0).
Definition default_theta : R := 0.
Definition default_buffer : R := 0.

Definition __init__ (a0 b0 : R) (center0 : value) (theta0 buffer0 : R) : res t :=
  match center0 with
  | NotVec => Raise TypeError
  | Vec c => Ok (mk c theta0 (a0 + buffer0) (b0 + buffer0) buffer0 true)
  end.

Definition warn_applied : string := "Warning: Buffer already applied. Call Ignored.".
Definition warn_removed : string := "Warning: Buffer already removed. Call Ignored.".

(** [applyBuffer] and [removeBuffer] return the object after the call and
    the warnings issued through [warnings.warn]. *)
Definition applyBuffer (self : t) : t * list string :=
  if negb (BUFFER_FLAG self) then
    let self := set_a (a self + buffer self) self in
    let self := set_b (b self + buffer self) self in
    (set_BUFFER_FLAG true self, [])
  else (self, [warn_applied]).

Definition removeBuffer (self : t) : t * list string :=
  if BUFFER_FLAG self then
    let self := set_a (a self - buffer self) self in
    let self := set_b (b self - buffer self) self in
    (set_BUFFER_FLAG false self, [])
  else (self, [warn_removed]).

Definition evaluate (self : t) (p : value) : res R :=
  (Obstacle2DBase.evaluate p ;;
   p <- attrs p ;;
   let dx := Vector2.x p - Vector2.x (center self) in
   let dy := Vector2.y p - Vector2.y (center self) in
   let ct := cos (theta self) in
   let st := sin (theta self) in
   let eval :=
     ((dx * ct + dy * st) / a self) ^ 2
     + ((- dx * st + dy * ct) / b self) ^ 2 - 1 in
   Ok eval)%res.

Definition f (self : t) (p : value) : res R := evaluate self p.

Definition dx (self : t) (p : value) : res R :=
  (Obstacle2DBase.dx p ;;
   p <- attrs p ;;
   let xd := Vector2.x p - Vector2.x (center self) in
   let yd := Vector2.y p - Vector2.y (center self) in
   let ct := cos (theta self) in
   let st := sin (theta self) in
   let dx_ :=
     (2 * ct / (a self ^ 2)) * (xd * ct + yd * st)
     + (- 2 * st / (b self ^ 2)) * (- xd * st + yd * ct) in
   Ok dx_)%res.

Definition dy (self : t) (p : value) : res R :=
  (Obstacle2DBase.dy p ;;
   p <- attrs p ;;
   let xd := Vector2.x p - Vector2.x (center self) in
   let yd := Vector2.y p - Vector2.y (center self) in
   let ct := cos (theta self) in
   let st := sin (theta self) in
   let dy_ :=
     (2 * st / (a self ^ 2)) * (xd * ct + yd * st)
     + (2 * ct / (b self ^ 2)) * (- xd * st + yd * ct) in
   Ok dy_)%res.

Definition dtheta (self : t) (p : value) : res R := Obstacle2DBase.dtheta p.

Definition gradient (self : t) (p : value) : res (list R) :=
  (Obstacle2DBase.gradient p ;;
   gx <- dx self p ;;
   gy <- dy self p ;;
   gt <- dtheta self p ;;
   Ok [gx; gy; gt])%res.

(** [update(a=None, b=None, center=None, theta=None, buffer=None)]:
    [None] is an argument that was not given. *)
Definition update (a' b' : option R) (center' : option value)
    (theta' buffer' : option R) : M t unit :=
  ((match a' with
    | Some v => s <- get ;; put (set_a v s)
    | None => ret tt
    end) ;;
   (match b' with
    | Some v => s <- get ;; put (set_b v s)
    | None => ret tt
    end) ;;
   (match center' with
    | Some c =>
        match c with
        | NotVec => raise TypeError
        | Vec c => s <- get ;; put (set_center c s)
        end
    | None => ret tt
    end) ;;
   (match theta' with
    | Some v => s <- get ;; put (set_theta v s)
    | None => ret tt
    end) ;;
   (match buffer' with
    | Some v =>
        s <- get ;;
        if BUFFER_FLAG s then
          (s <- get ;; put (set_a (a s - buffer s + v) s)) ;;
          (s <- get ;; put (set_b (b s - buffer s + v) s)) ;;
          (s <- get ;; put (set_buffer v s))
        else
          put (set_buffer v s)
    | None => ret tt
    end))%M.

Definition updateCoords (xy : value) : M t unit :=
  (lift (Obstacle2DBase.updateCoords xy) ;;
   c <- lift (attrs xy) ;;
   s <- get ;; put (set_center c s))%M.

Definition updateOrientation (yaw : R) : M t unit :=
  (s <- get ;; put (set_theta yaw s))%M.

Definition updateByBoundingBox (BBox : BoundingBox.t) : M t unit :=
  let a := BoundingBox.extent_x BBox in
  let b := BoundingBox.extent_y BBox in
  let center := Vec (Vector2.mk (BoundingBox.location_x BBox) (BoundingBox.location_y BBox)) in
  let theta := BoundingBox.rotation_yaw BBox in
  update (Some a) (Some b) (Some center) (Some theta) None.

(** [fromBoundingBox] tests [isinstance(BBox, carla.BoundingBox)].  The
    argument [carla] says whether the name [carla] is bound in the
    module's globals when the method runs; reading an unbound global
    raises [NameError]. *)
Definition fromBoundingBox (carla : bool) (BBox : BoundingBox.t) (buffer : R) : res t :=
  if carla then
    let a := BoundingBox.extent_x BBox in
    let b := BoundingBox.extent_y BBox in
    let center := Vec (Vector2.mk (BoundingBox.location_x BBox) (BoundingBox.location_y BBox)) in
    let theta := BoundingBox.rotation_yaw BBox in
    __init__ a b center theta buffer
  else Raise NameError.

End Ellipse2D.

(** The module's globals: [import carla] is commented out (line 14) and no
    other statement binds the name. *)
Definition carla_bound : bool := false.

(** ** Python [dict]: insertion ordered, one entry per key *)

Module dict.
Section Dict.
Variable V : Type.

Definition t : Type := list (Z * V).

Fixpoint lookup (key : Z) (d : t) : option V :=
  match d with
  | [] => None
  | (k, v) :: rest => if (k =? key)%Z then Some v else lookup key rest
  end.

(** [key in d] *)
Definition contains (key : Z) (d : t) : bool :=
  match lookup key d with
  | Some _ => true
  | None => false
  end.

(** [d[key] = v]: an existing key keeps its place, a new one goes last. *)
Fixpoint set (key : Z) (v : V) (d : t) : t :=
  match d with
  | [] => [(key, v)]
  | (k, w) :: rest =>
      if (k =? key)%Z then (k, v) :: rest else (k, w) :: set key v rest
  end.

(** [del d[key]] on a key that is present. *)
Fixpoint remove (key : Z) (d : t) : t :=
  match d with
  | [] => []
  | (k, w) :: rest =>
      if (k =? key)%Z then rest else (k, w) :: remove key rest
  end.

Definition keys (d : t) : list Z := map fst d.
Definition values (d : t) : list V := map snd d.
Definition items (d : t) : list (Z * V) := d.
Definition len (d : t) : nat := length d.

End Dict.

Arguments lookup {V} key d.
Arguments contains {V} key d.
Arguments set {V} key v d.
Arguments remove {V} key d.
Arguments keys {V} d.
Arguments values {V} d.
Arguments items {V} d.
Arguments len {V} d.

End dict.

(** ** Objects and the heap *)

(** An instance of [Obstacle2DBase] itself, of [Ellipse2D], or of a class
    that does not derive from [Obstacle2DBase]. *)
Inductive object : Type :=
| BaseObj
| EllipseObj (e : Ellipse2D.t)
| OtherObj.

Definition addr : Type := nat.

(** [Obstacle2DBase in value.__class__.__mro__] *)
Definition derives_Obstacle2DBase (o : object) : bool :=
  match o with
  | BaseObj | EllipseObj _ => true
  | OtherObj => false
  end.

Definition deref (h : list object) (r : addr) : object := nth r h OtherObj.

Fixpoint store (r : addr) (o : object) (h : list object) : list object :=
  match h, r with
  | [], _ => []
  | _ :: rest, O => o :: rest
  | x :: rest, S r' => x :: store r' o rest
  end.

(** Method dispatch on the class of the receiver. *)
Definition call_f (o : object) (p : value) : res R :=
  match o with
  | BaseObj => Obstacle2DBase.f p
  | EllipseObj e => Ellipse2D.f e p
  | OtherObj => Raise AttributeError
  end.

Definition call_dx (o : object) (p : value) : res R :=
  match o with
  | BaseObj => Obstacle2DBase.dx p
  | EllipseObj e => Ellipse2D.dx e p
  | OtherObj => Raise AttributeError
  end.

Definition call_dy (o : object) (p : value) : res R :=
  match o with
  | BaseObj => Obstacle2DBase.dy p
  | EllipseObj e => Ellipse2D.dy e p
  | OtherObj => Raise AttributeError
  end.

Definition call_dtheta (o : object) (p : value) : res R :=
  match o with
  | BaseObj => Obstacle2DBase.dtheta p
  | EllipseObj e => Ellipse2D.dtheta e p
  | OtherObj => Raise AttributeError
  end.

Definition call_gradient (o : object) (p : value) : res (list R) :=
  match o with
  | BaseObj => Obstacle2DBase.gradient p
  | EllipseObj e => Ellipse2D.gradient e p
  | OtherObj => Raise AttributeError
  end.

(** [m[idx] = v] on a cvxopt matrix. *)
Fixpoint setitem {A : Type} (idx : nat) (v : A) (m : list A) : res (list A) :=
  match m, idx with
  | [], _ => Raise IndexError
  | _ :: rest, O => Ok (v :: rest)
  | x :: rest, S i => (rest' <- setitem i v rest ;; Ok (x :: rest'))%res
  end.

(** ** class ObstacleList2D *)

Definition ELLIPSE2D : Z := 0.

Module ObstacleList2D.

(** [mapping] is [self.mapping]; [heap] holds the objects it refers to. *)
Record t : Type := mk {
  heap : list object;
  mapping : dict.t addr
}.

Definition set_mapping (m : dict.t addr) (self : t) : t := mk (heap self) m.
Definition set_heap (h : list object) (self : t) : t := mk h (mapping self).

(** A freshly constructed object gets the next free address. *)
Definition alloc (o : object) : M t addr :=
  fun self => (set_heap (heap self ++ [o]) self, Ok (length (heap self))).

Definition __getitem__ (key : Z) : M t addr :=
  (self <- get ;;
   match dict.lookup key (mapping self) with
   | Some r => ret r
   | None => raise KeyError
   end)%M.

Definition __delitem__ (key : Z) : M t unit :=
  (self <- get ;;
   if dict.contains key (mapping self)
   then put (set_mapping (dict.remove key (mapping self)) self)
   else raise KeyError)%M.

Definition __setitem__ (key : Z) (value : addr) : M t unit :=
  (self <- get ;;
   if negb (derives_Obstacle2DBase (deref (heap self) value))
   then raise TypeError
   else put (set_mapping (dict.set key value (mapping self)) self))%M.

Definition __len__ (self : t) : nat := dict.len (mapping self).

(** [MutableMapping.pop(key)] without a default: [value = self[key]], then
    [del self[key]]. *)
Definition pop (key : Z) : M t addr :=
  (value <- __getitem__ key ;;
   __delitem__ key ;;
   ret value)%M.

(** [self.mapping[key].updateByBoundingBox(bbox)]: the object at address
    [r] is mutated where it lives. *)
Definition call_updateByBoundingBox (r : addr) (bbox : BoundingBox.t) : M t unit :=
  (self <- get ;;
   match deref (heap self) r with
   | EllipseObj e =>
       let (e', outcome) := Ellipse2D.updateByBoundingBox bbox e in
       put (set_heap (store r (EllipseObj e') (heap self)) self) ;;
       lift outcome
   | BaseObj | OtherObj => raise AttributeError
   end)%M.

(** The first loop of [updateByBoundingBox], over [obs_dict.items()]. *)
Fixpoint update_or_insert (carla : bool) (items : list (Z * BoundingBox.t))
    (obs_type : Z) (buffer : R) : M t unit :=
  match items with
  | [] => ret tt
  | (key, bbox) :: rest =>
      ((self <- get ;;
        if dict.contains key (mapping self) then
          r <- __getitem__ key ;;
          call_updateByBoundingBox r bbox
        else if (obs_type =? ELLIPSE2D)%Z then
          e <- lift (Ellipse2D.fromBoundingBox carla bbox buffer) ;;
          r <- alloc (EllipseObj e) ;;
          __setitem__ key r
        else ret tt) ;;
       update_or_insert carla rest obs_type buffer)%M
  end.

(** The second loop, [for key in self.mapping.keys()].  The iterator of a
    dict remembers the size of the dict when it was created ([used]); each
    request for the next key first compares it with the current size and
    raises [RuntimeError] ("dictionary changed size during iteration") when
    they differ, also when no key is left.  [todo] are the keys not yet
    visited. *)
Fixpoint remove_vanished (obs_dict : dict.t BoundingBox.t) (todo : list Z)
    (used : nat) : M t unit :=
  (self <- get ;;
   if negb (dict.len (mapping self) =? used)%nat then raise RuntimeError
   else
     match todo with
     | [] => ret tt
     | key :: rest =>
         (if negb (dict.contains key obs_dict)
          then pop key ;; ret tt
          else ret tt) ;;
         remove_vanished obs_dict rest used
     end)%M.

Definition updateByBoundingBox (carla : bool) (obs_dict : option (dict.t BoundingBox.t))
    (obs_type : Z) (buffer : R) : M t unit :=
  match obs_dict with
  | Some obs_dict =>
      (update_or_insert carla (dict.items obs_dict) obs_type buffer ;;
       self <- get ;;
       remove_vanished obs_dict (dict.keys (mapping self)) (dict.len (mapping self)))%M
  | None => ret tt
  end.

Definition default_obs_dict : option (dict.t BoundingBox.t) := None.
Definition default_obs_type : Z := ELLIPSE2D.
Definition default_buffer : R := (5 / 10)%R.

(** The loop shared by [f], [dx], [dy], [dtheta] and [gradient]:
    [for obs in self.mapping.values(): out[idx] = obs.m(p); idx = idx + 1]. *)
Fixpoint fill {A : Type} (m : object -> res A) (h : list object)
    (vals : list addr) (idx : nat) (out : list A) : res (list A) :=
  match vals with
  | [] => Ok out
  | obs :: rest =>
      (v <- m (deref h obs) ;;
       out' <- setitem idx v out ;;
       fill m h rest (S idx) out')%res
  end.

Definition f (self : t) (p : value) : res (list R) :=
  fill (fun obs => call_f obs p) (heap self) (dict.values (mapping self)) 0
       (matrix_zeros (dict.len (mapping self))).

Definition dx (self : t) (p : value) : res (list R) :=
  fill (fun obs => call_dx obs p) (heap self) (dict.values (mapping self)) 0
       (matrix_zeros (dict.len (mapping self))).

Definition dy (self : t) (p : value) : res (list R) :=
  fill (fun obs => call_dy obs p) (heap self) (dict.values (mapping self)) 0
       (matrix_zeros (dict.len (mapping self))).

Definition dtheta (self : t) (p : value) : res (list R) :=
  fill (fun obs => call_dtheta obs p) (heap self) (dict.values (mapping self)) 0
       (matrix_zeros (dict.len (mapping self))).

Definition gradient (self : t) (p : value) : res (list (list R)) :=
  fill (fun obs => call_gradient obs p) (heap self) (dict.values (mapping self)) 0
       (matrix_zeros2 (dict.len (mapping self)) 3).

(** [__iter__]: the keys, in iteration order. *)
Definition __iter__ (self : t) : list Z := dict.keys (mapping self).

(** [MutableMapping.update(data)] of the standard library, for [data] a
    sequence of pairs (or the items of a mapping): [self[key] = value] for
    each pair in turn. *)
Fixpoint update (data : list (Z * addr)) : M t unit :=
  match data with
  | [] => ret tt
  | (key, value) :: rest => (__setitem__ key value ;; update rest)%M
  end.

(** [ObstacleList2D(data)], the objects of [data] living in the heap [h]:
    [self.mapping = {}], then [self.update(data)].  An exception leaves no
    object to the caller. *)
Definition __init__ (h : list object) (data : list (Z * addr)) : res t :=
  match update data (mk h []) with
  | (self, Ok _) => Ok self
  | (_, Raise e) => Raise e
  end.

Definition default_data : list (Z * addr) := [].

End ObstacleList2D.

(** ** Notions of the specification *)

Module Spec.

Open Scope R_scope.

(** The formulas of the specification for [f], [dx] and [dy], written from
    its text. *)
Definition spec_f (e : Ellipse2D.t) (p : Vector2.t) : R :=
  let dx := Vector2.x p - Vector2.x (Ellipse2D.center e) in
  let dy := Vector2.y p - Vector2.y (Ellipse2D.center e) in
  let ct := cos (Ellipse2D.theta e) in
  let st := sin (Ellipse2D.theta e) in
  let a := Ellipse2D.a e in
  let b := Ellipse2D.b e in
  ((dx * ct + dy * st) / a) ^ 2 + ((- dx * st + dy * ct) / b) ^ 2 - 1.

Definition spec_dx (e : Ellipse2D.t) (p : Vector2.t) : R :=
  let xd := Vector2.x p - Vector2.x (Ellipse2D.center e) in
  let yd := Vector2.y p - Vector2.y (Ellipse2D.center e) in
  let ct := cos (Ellipse2D.theta e) in
  let st := sin (Ellipse2D.theta e) in
  let a := Ellipse2D.a e in
  let b := Ellipse2D.b e in
  (2 * ct / a ^ 2) * (xd * ct + yd * st) + (- 2 * st / b ^ 2) * (- xd * st + yd * ct).

Definition spec_dy (e : Ellipse2D.t) (p : Vector2.t) : R :=
  let xd := Vector2.x p - Vector2.x (Ellipse2D.center e) in
  let yd := Vector2.y p - Vector2.y (Ellipse2D.center e) in
  let ct := cos (Ellipse2D.theta e) in
  let st := sin (Ellipse2D.theta e) in
  let a := Ellipse2D.a e in
  let b := Ellipse2D.b e in
  (2 * st / a ^ 2) * (xd * ct + yd * st) + (2 * ct / b ^ 2) * (- xd * st + yd * ct).

(** The point with coordinates [(s, t)] in the frame of the ellipse, in
    units of its semi-axes: [center + R(theta) (a s, b t)].  The ellipse is
    the image of the unit circle, its interior the image of the open unit
    disc. *)
Definition frame_point (e : Ellipse2D.t) (s t : R) : Vector2.t :=
  Vector2.mk
    (Vector2.x (Ellipse2D.center e)
     + Ellipse2D.a e * s * cos (Ellipse2D.theta e)
     - Ellipse2D.b e * t * sin (Ellipse2D.theta e))
    (Vector2.y (Ellipse2D.center e)
     + Ellipse2D.a e * s * sin (Ellipse2D.theta e)
     + Ellipse2D.b e * t * cos (Ellipse2D.theta e)).

Definition strictly_inside (e : Ellipse2D.t) (p : Vector2.t) : Prop :=
  exists s t, p = frame_point e s t /\ s ^ 2 + t ^ 2 < 1.

Definition on_boundary (e : Ellipse2D.t) (p : Vector2.t) : Prop :=
  exists s t, p = frame_point e s t /\ s ^ 2 + t ^ 2 = 1.

Definition strictly_outside (e : Ellipse2D.t) (p : Vector2.t) : Prop :=
  exists s t, p = frame_point e s t /\ 1 < s ^ 2 + t ^ 2.

(** The value of [f] as a function of one coordinate of the query point,
    the other held fixed. *)
Definition f_of_px (e : Ellipse2D.t) (p : Vector2.t) (u : R) : R :=
  returned (Ellipse2D.f e (Vec (Vector2.mk u (Vector2.y p)))).
Definition f_of_py (e : Ellipse2D.t) (p : Vector2.t) (u : R) : R :=
  returned (Ellipse2D.f e (Vec (Vector2.mk (Vector2.x p) u))).

(** The value of [f] as a function of one coordinate of the center of the
    ellipse, the query point held fixed. *)
Definition f_of_cx (e : Ellipse2D.t) (p : Vector2.t) (u : R) : R :=
  returned (Ellipse2D.f
    (Ellipse2D.set_center (Vector2.mk u (Vector2.y (Ellipse2D.center e))) e) (Vec p)).
Definition f_of_cy (e : Ellipse2D.t) (p : Vector2.t) (u : R) : R :=
  returned (Ellipse2D.f
    (Ellipse2D.set_center (Vector2.mk (Vector2.x (Ellipse2D.center e)) u) e) (Vec p)).

(** The invariant of the data model for an ellipse whose shape without the
    buffer has semi-axes [a0] and [b0]: when the flag is set, the stored
    semi-axes contain the buffer once. *)
Definition buffer_invariant (a0 b0 : R) (e : Ellipse2D.t) : Prop :=
  Ellipse2D.BUFFER_FLAG e = true ->
  Ellipse2D.a e = a0 + Ellipse2D.buffer e /\ Ellipse2D.b e = b0 + Ellipse2D.buffer e.

End Spec.

(** ** Concrete inputs *)

Module Examples.

Open Scope R_scope.

(** An ellipse with semi-axes 2 and 1 at the origin, and a point on it. *)
Definition ellipse21 : Ellipse2D.t :=
  Ellipse2D.mk (Vector2.mk 0 0) 0 2 1 0 true.
Definition p20 : Vector2.t := Vector2.mk 2 0.
Definition p10 : Vector2.t := Vector2.mk 1 0.

(** [Ellipse2D(1, 1, buffer=0.5)] and an observation of extent [(1, 1)]. *)
Definition buffered : Ellipse2D.t :=
  Ellipse2D.mk (Vector2.mk 0 0) 0 (1 + 5 / 10) (1 + 5 / 10) (5 / 10) true.
Definition unbuffered : Ellipse2D.t :=
  Ellipse2D.mk (Vector2.mk 0 0) 0 1 1 (5 / 10) false.
Definition bbox11 : BoundingBox.t := BoundingBox.mk 1 1 0 0 0.

(** The reconciliation scenario: a collection with keys 1 and 2, an
    observation with keys 2 and 3. *)
Definition bbox2 : BoundingBox.t := BoundingBox.mk 3 2 5 5 1.
Definition bbox3 : BoundingBox.t := BoundingBox.mk 1 1 9 9 0.
Definition obstacle1 : Ellipse2D.t :=
  Ellipse2D.mk (Vector2.mk 0 0) 0 (1 + 5 / 10) (1 + 5 / 10) (5 / 10) true.
Definition obstacle2 : Ellipse2D.t :=
  Ellipse2D.mk (Vector2.mk 4 4) 0 (2 + 5 / 10) (1 + 5 / 10) (5 / 10) true.
Definition collection12 : ObstacleList2D.t :=
  ObstacleList2D.mk [EllipseObj obstacle1; EllipseObj obstacle2]
                    [(1%Z, 0%nat); (2%Z, 1%nat)].
Definition observations23 : dict.t BoundingBox.t := [(2%Z, bbox2); (3%Z, bbox3)].

(** Ellipse 2 after [updateByBoundingBox bbox2], and the ellipse
    [fromBoundingBox] builds from [bbox3] with buffer [0.5]. *)
Definition obstacle2_refreshed : Ellipse2D.t :=
  Ellipse2D.mk (Vector2.mk 5 5) 1 3 2 (5 / 10) true.
Definition obstacle3 : Ellipse2D.t :=
  Ellipse2D.mk (Vector2.mk 9 9) 0 (1 + 5 / 10) (1 + 5 / 10) (5 / 10) true.

(** A heap with an object that is no obstacle at address 2. *)
Definition collection_with_other : ObstacleList2D.t :=
  ObstacleList2D.mk [EllipseObj obstacle1; BaseObj; OtherObj]
                    [(1%Z, 0%nat)].

End Examples.

(** Further inputs: an observation of the two obstacles of [collection12],
    a collection holding an instance of [Obstacle2DBase] itself, and the
    empty collection. *)
Module MoreExamples.

Open Scope R_scope.

Definition bbox1 : BoundingBox.t := BoundingBox.mk 2 1 7 8 0.
Definition observations12 : dict.t BoundingBox.t :=
  [(1%Z, bbox1); (2%Z, Examples.bbox2)].
Definition collection_with_base : ObstacleList2D.t :=
  ObstacleList2D.mk [BaseObj; EllipseObj Examples.obstacle1]
                    [(1%Z, 0%nat); (2%Z, 1%nat)].
Definition empty_collection : ObstacleList2D.t :=
  ObstacleList2D.mk [EllipseObj Examples.obstacle1] [].
Definition p34 : Vector2.t := Vector2.mk 3 4.

End MoreExamples.

(** The invariant of the collection: every value is an obstacle. *)
Module Invariant.

Definition obstacles_only (self : ObstacleList2D.t) : Prop :=
  Forall (fun r => derives_Obstacle2DBase
                     (deref (ObstacleList2D.heap self) r) = true)
         (dict.values (ObstacleList2D.mapping self)).

(** A computation keeps a property of the collection when the property
    holds after it, returned or raised, whenever it held before. *)
Definition keeps {A : Type} (P : ObstacleList2D.t -> Prop)
    (m : M ObstacleList2D.t A) : Prop :=
  forall self, P self -> P (fst (m self)).

Definition has_key (key : Z) (self : ObstacleList2D.t) : Prop :=
  In key (dict.keys (ObstacleList2D.mapping self)).

End Invariant.

(** * Verification *)

(** ** Ellipse2D: value and sign of [f] *)

Section EllipseValue.

Import Spec.
Open Scope R_scope.

Lemma cos2_sin2_one (th : R) : cos th * cos th + sin th * sin th = 1.
Proof.
  pose proof (sin2_cos2 th) as H. unfold Rsqr in H. lra.
Qed.

Lemma evaluate_Vec (e : Ellipse2D.t) (p : Vector2.t) :
  Ellipse2D.evaluate e (Vec p) = Ok (spec_f e p).
Proof. reflexivity. Qed.

Lemma evaluate_NotVec (e : Ellipse2D.t) :
  Ellipse2D.evaluate e NotVec = Raise TypeError.
Proof. reflexivity. Qed.

(** In its own frame the ellipse is the unit circle. *)
Lemma spec_f_frame_point (e : Ellipse2D.t) (s t : R) :
  Ellipse2D.a e <> 0 -> Ellipse2D.b e <> 0 ->
  spec_f e (frame_point e s t) = s ^ 2 + t ^ 2 - 1.
Proof.
  intros Ha Hb. unfold spec_f, frame_point. cbn [Vector2.x Vector2.y].
  pose proof (cos2_sin2_one (Ellipse2D.theta e)) as H.
  set (ct := cos (Ellipse2D.theta e)) in *.
  set (st := sin (Ellipse2D.theta e)) in *.
  set (a := Ellipse2D.a e) in *. set (b := Ellipse2D.b e) in *.
  set (cx := Vector2.x (Ellipse2D.center e)).
  set (cy := Vector2.y (Ellipse2D.center e)).
  cbv zeta.
  replace ((cx + a * s * ct - b * t * st - cx) * ct
           + (cy + a * s * st + b * t * ct - cy) * st)
    with (a * s * (ct * ct + st * st)) by ring.
  replace (- (cx + a * s * ct - b * t * st - cx) * st
           + (cy + a * s * st + b * t * ct - cy) * ct)
    with (b * t * (ct * ct + st * st)) by ring.
  rewrite H. field. split; assumption.
Qed.

(** Every point has frame coordinates, those [evaluate] computes. *)
Lemma frame_point_coords (e : Ellipse2D.t) (p : Vector2.t) :
  Ellipse2D.a e <> 0 -> Ellipse2D.b e <> 0 ->
  let dx := Vector2.x p - Vector2.x (Ellipse2D.center e) in
  let dy := Vector2.y p - Vector2.y (Ellipse2D.center e) in
  let ct := cos (Ellipse2D.theta e) in
  let st := sin (Ellipse2D.theta e) in
  p = frame_point e ((dx * ct + dy * st) / Ellipse2D.a e)
                    ((- dx * st + dy * ct) / Ellipse2D.b e).
Proof.
  intros Ha Hb. destruct p as [px py]. unfold frame_point.
  cbn [Vector2.x Vector2.y].
  pose proof (cos2_sin2_one (Ellipse2D.theta e)) as H.
  set (ct := cos (Ellipse2D.theta e)) in *.
  set (st := sin (Ellipse2D.theta e)) in *.
  set (a := Ellipse2D.a e) in *. set (b := Ellipse2D.b e) in *.
  set (cx := Vector2.x (Ellipse2D.center e)).
  set (cy := Vector2.y (Ellipse2D.center e)).
  f_equal.
  - transitivity (cx + (px - cx) * (ct * ct + st * st));
      [rewrite H; ring | field; split; assumption].
  - transitivity (cy + (py - cy) * (ct * ct + st * st));
      [rewrite H; ring | field; split; assumption].
Qed.

Lemma spec_f_sign (e : Ellipse2D.t) (p : Vector2.t) :
  Ellipse2D.a e <> 0 -> Ellipse2D.b e <> 0 ->
  (strictly_inside e p <-> spec_f e p < 0)
  /\ (on_boundary e p <-> spec_f e p = 0)
  /\ (strictly_outside e p <-> 0 < spec_f e p).
Proof.
  intros Ha Hb.
  assert (Hto : forall s t, p = frame_point e s t ->
                            spec_f e p = s ^ 2 + t ^ 2 - 1).
  { intros s t ->. apply spec_f_frame_point; assumption. }
  pose proof (frame_point_coords e p Ha Hb) as Hp. cbv zeta in Hp.
  assert (Hf : spec_f e p =
    ((( Vector2.x p - Vector2.x (Ellipse2D.center e)) * cos (Ellipse2D.theta e)
      + (Vector2.y p - Vector2.y (Ellipse2D.center e)) * sin (Ellipse2D.theta e))
     / Ellipse2D.a e) ^ 2
    + ((- (Vector2.x p - Vector2.x (Ellipse2D.center e)) * sin (Ellipse2D.theta e)
        + (Vector2.y p - Vector2.y (Ellipse2D.center e)) * cos (Ellipse2D.theta e))
       / Ellipse2D.b e) ^ 2 - 1) by reflexivity.
  repeat split.
  - intros (s & t & Hpt & Hlt). rewrite (Hto _ _ Hpt). lra.
  - intros Hlt. eexists _, _. split; [exact Hp | lra].
  - intros (s & t & Hpt & Hlt). rewrite (Hto _ _ Hpt). lra.
  - intros Hlt. eexists _, _. split; [exact Hp | lra].
  - intros (s & t & Hpt & Hlt). rewrite (Hto _ _ Hpt). lra.
  - intros Hlt. eexists _, _. split; [exact Hp | lra].
Qed.

(** C3.  On every ellipse and every point [p], [evaluate] and its alias [f]
    return [((dx*ct + dy*st)/a)^2 + ((-dx*st + dy*ct)/b)^2 - 1] with
    [dx = p.x - c.x], [dy = p.y - c.y]; for non-zero semi-axes that value
    is negative exactly at the points strictly inside the ellipse, zero
    exactly on its boundary and positive exactly strictly outside, and it
    vanishes at every boundary point [c + R(theta) (a cos phi, b sin phi)]. *)
Theorem C3_evaluate_value_and_sign (e : Ellipse2D.t) (p : Vector2.t) :
  let dx := Vector2.x p - Vector2.x (Ellipse2D.center e) in
  let dy := Vector2.y p - Vector2.y (Ellipse2D.center e) in
  let ct := cos (Ellipse2D.theta e) in
  let st := sin (Ellipse2D.theta e) in
  let v := ((dx * ct + dy * st) / Ellipse2D.a e) ^ 2
           + ((- dx * st + dy * ct) / Ellipse2D.b e) ^ 2 - 1 in
  Ellipse2D.evaluate e (Vec p) = Ok v
  /\ Ellipse2D.f e (Vec p) = Ok v
  /\ (Ellipse2D.a e <> 0 -> Ellipse2D.b e <> 0 ->
      (strictly_inside e p <-> v < 0)
      /\ (on_boundary e p <-> v = 0)
      /\ (strictly_outside e p <-> 0 < v)
      /\ forall phi,
           Ellipse2D.f e (Vec (frame_point e (cos phi) (sin phi))) = Ok 0).
Proof.
  cbv zeta. split; [reflexivity | split; [reflexivity | ]].
  intros Ha Hb.
  destruct (spec_f_sign e p Ha Hb) as (Hin & Hon & Hout).
  repeat split; try (apply Hin || apply Hon || apply Hout).
  intros phi. unfold Ellipse2D.f. rewrite evaluate_Vec.
  rewrite spec_f_frame_point by assumption.
  f_equal. pose proof (cos2_sin2_one phi). lra.
Qed.

(** The ellipse with semi-axes 2 and 1 at the origin: [(2, 0)] is on the
    boundary and [(1, 0)] strictly inside, with a negative value of [f]. *)
Lemma C3_witness :
  (exists v, Ellipse2D.f Examples.ellipse21 (Vec Examples.p20) = Ok v /\ v = 0)
  /\ (exists v, Ellipse2D.f Examples.ellipse21 (Vec Examples.p10) = Ok v /\ v < 0).
Proof.
  assert (Ha : Ellipse2D.a Examples.ellipse21 <> 0) by (cbn; lra).
  assert (Hb : Ellipse2D.b Examples.ellipse21 <> 0) by (cbn; lra).
  split.
  - destruct (C3_evaluate_value_and_sign Examples.ellipse21 Examples.p20)
      as (_ & Hf & H).
    destruct (H Ha Hb) as (_ & Hon & _).
    eexists. split; [exact Hf | ].
    apply Hon. exists 1, 0. split.
    + unfold frame_point, Examples.p20. cbn. rewrite cos_0, sin_0.
      f_equal; ring.
    + lra.
  - destruct (C3_evaluate_value_and_sign Examples.ellipse21 Examples.p10)
      as (_ & Hf & H).
    destruct (H Ha Hb) as (Hin & _).
    eexists. split; [exact Hf | ].
    apply Hin. exists (1 / 2), 0. split.
    + unfold frame_point, Examples.p10. cbn. rewrite cos_0, sin_0.
      f_equal; field.
    + lra.
Defined.

End EllipseValue.

(** ** Ellipse2D: [dx] and [dy] *)

Section EllipseGradient.

Import Spec.
Open Scope R_scope.

Lemma dx_Vec (e : Ellipse2D.t) (p : Vector2.t) :
  Ellipse2D.dx e (Vec p) = Ok (spec_dx e p).
Proof. reflexivity. Qed.

Lemma dy_Vec (e : Ellipse2D.t) (p : Vector2.t) :
  Ellipse2D.dy e (Vec p) = Ok (spec_dy e p).
Proof. reflexivity. Qed.

Lemma derivable_pt_lim_quadratic (A B C u : R) :
  derivable_pt_lim (fun t => A * (t * t) + B * t + C) u (2 * A * u + B).
Proof.
  replace (2 * A * u + B) with (A * (1 * u + u * 1) + B * 1 + 0) by ring.
  apply (derivable_pt_lim_plus (fun t => A * (t * t) + B * t) (fun _ => C)).
  - apply (derivable_pt_lim_plus (fun t => A * (t * t)) (fun t => B * t)).
    + apply (derivable_pt_lim_scal (fun t => t * t) A).
      apply (derivable_pt_lim_mult id id); apply derivable_pt_lim_id.
    + apply (derivable_pt_lim_scal id B). apply derivable_pt_lim_id.
  - apply (derivable_pt_lim_const C).
Qed.

(** The derivative of [((al t + be) / a)^2 + ((ga t + de) / b)^2 - 1]. *)
Lemma derivable_pt_lim_two_squares (a b al be ga de u : R) :
  a <> 0 -> b <> 0 ->
  derivable_pt_lim
    (fun t => ((al * t + be) / a) ^ 2 + ((ga * t + de) / b) ^ 2 - 1) u
    ((2 * al / (a ^ 2)) * (al * u + be) + (2 * ga / (b ^ 2)) * (ga * u + de)).
Proof.
  intros Ha Hb.
  apply derivable_pt_lim_ext with
    (f := fun t => (al * al / (a * a) + ga * ga / (b * b)) * (t * t)
                   + (2 * al * be / (a * a) + 2 * ga * de / (b * b)) * t
                   + (be * be / (a * a) + de * de / (b * b) - 1)).
  - intros z. field. split; assumption.
  - replace ((2 * al / (a ^ 2)) * (al * u + be)
             + (2 * ga / (b ^ 2)) * (ga * u + de))
      with (2 * (al * al / (a * a) + ga * ga / (b * b)) * u
            + (2 * al * be / (a * a) + 2 * ga * de / (b * b)))
      by (field; split; assumption).
    apply derivable_pt_lim_quadratic.
Qed.

(** Reduces a derivative of [f] along one coordinate to
    [derivable_pt_lim_two_squares], given the affine forms [al t + be] and
    [ga t + de] of the two frame coordinates. *)
Ltac two_squares al be ga de :=
  match goal with
  | Ha : ?a <> 0, Hb : ?b <> 0 |- derivable_pt_lim _ ?u ?l =>
      apply derivable_pt_lim_ext with
        (f := fun t => ((al * t + be) / a) ^ 2 + ((ga * t + de) / b) ^ 2 - 1);
      [ intros z; cbn -[pow]; field; split; assumption
      | replace l with
          ((2 * al / (a ^ 2)) * (al * u + be) + (2 * ga / (b ^ 2)) * (ga * u + de))
          by (cbv zeta; field; split; assumption);
        apply derivable_pt_lim_two_squares; assumption ]
  end.

Lemma f_of_px_deriv (e : Ellipse2D.t) (p : Vector2.t) :
  Ellipse2D.a e <> 0 -> Ellipse2D.b e <> 0 ->
  derivable_pt_lim (f_of_px e p) (Vector2.x p) (spec_dx e p).
Proof.
  intros Ha Hb. unfold f_of_px, spec_dx.
  two_squares
    (cos (Ellipse2D.theta e))
    ((Vector2.y p - Vector2.y (Ellipse2D.center e)) * sin (Ellipse2D.theta e)
     - Vector2.x (Ellipse2D.center e) * cos (Ellipse2D.theta e))
    (- sin (Ellipse2D.theta e))
    ((Vector2.y p - Vector2.y (Ellipse2D.center e)) * cos (Ellipse2D.theta e)
     + Vector2.x (Ellipse2D.center e) * sin (Ellipse2D.theta e)).
Qed.

Lemma f_of_py_deriv (e : Ellipse2D.t) (p : Vector2.t) :
  Ellipse2D.a e <> 0 -> Ellipse2D.b e <> 0 ->
  derivable_pt_lim (f_of_py e p) (Vector2.y p) (spec_dy e p).
Proof.
  intros Ha Hb. unfold f_of_py, spec_dy.
  two_squares
    (sin (Ellipse2D.theta e))
    ((Vector2.x p - Vector2.x (Ellipse2D.center e)) * cos (Ellipse2D.theta e)
     - Vector2.y (Ellipse2D.center e) * sin (Ellipse2D.theta e))
    (cos (Ellipse2D.theta e))
    (- (Vector2.x p - Vector2.x (Ellipse2D.center e)) * sin (Ellipse2D.theta e)
     - Vector2.y (Ellipse2D.center e) * cos (Ellipse2D.theta e)).
Qed.

Lemma f_of_cx_deriv (e : Ellipse2D.t) (p : Vector2.t) :
  Ellipse2D.a e <> 0 -> Ellipse2D.b e <> 0 ->
  derivable_pt_lim (f_of_cx e p) (Vector2.x (Ellipse2D.center e)) (- spec_dx e p).
Proof.
  intros Ha Hb. unfold f_of_cx, spec_dx.
  two_squares
    (- cos (Ellipse2D.theta e))
    ((Vector2.y p - Vector2.y (Ellipse2D.center e)) * sin (Ellipse2D.theta e)
     + Vector2.x p * cos (Ellipse2D.theta e))
    (sin (Ellipse2D.theta e))
    ((Vector2.y p - Vector2.y (Ellipse2D.center e)) * cos (Ellipse2D.theta e)
     - Vector2.x p * sin (Ellipse2D.theta e)).
Qed.

Lemma f_of_cy_deriv (e : Ellipse2D.t) (p : Vector2.t) :
  Ellipse2D.a e <> 0 -> Ellipse2D.b e <> 0 ->
  derivable_pt_lim (f_of_cy e p) (Vector2.y (Ellipse2D.center e)) (- spec_dy e p).
Proof.
  intros Ha Hb. unfold f_of_cy, spec_dy.
  two_squares
    (- sin (Ellipse2D.theta e))
    ((Vector2.x p - Vector2.x (Ellipse2D.center e)) * cos (Ellipse2D.theta e)
     + Vector2.y p * sin (Ellipse2D.theta e))
    (- cos (Ellipse2D.theta e))
    (- (Vector2.x p - Vector2.x (Ellipse2D.center e)) * sin (Ellipse2D.theta e)
     + Vector2.y p * cos (Ellipse2D.theta e)).
Qed.

Lemma spec_dx_ellipse21_p10 : spec_dx Examples.ellipse21 Examples.p10 = 1 / 2.
Proof.
  unfold spec_dx. cbn -[pow]. rewrite cos_0, sin_0. field.
Qed.

(** C4, as stated, fails: on the ellipse with semi-axes 2 and 1 at the
    origin and the point [(1, 0)], [dx] returns [1/2], which is not the
    partial derivative of [f] with respect to [center.x] (that is [-1/2]). *)
Lemma C4_counterexample :
  ~ derivable_pt_lim (f_of_cx Examples.ellipse21 Examples.p10)
      (Vector2.x (Ellipse2D.center Examples.ellipse21))
      (returned (Ellipse2D.dx Examples.ellipse21 (Vec Examples.p10))).
Proof.
  intros H. rewrite dx_Vec in H. cbn [returned] in H.
  assert (Ha : Ellipse2D.a Examples.ellipse21 <> 0) by (cbn; lra).
  assert (Hb : Ellipse2D.b Examples.ellipse21 <> 0) by (cbn; lra).
  pose proof (f_of_cx_deriv Examples.ellipse21 Examples.p10 Ha Hb) as H'.
  pose proof (uniqueness_limite _ _ _ _ H H') as Heq.
  rewrite spec_dx_ellipse21_p10 in Heq. lra.
Qed.

(** C4, amended.  [dx] and [dy] return exactly
    [(2*ct/a^2)*(xd*ct+yd*st) + (-2*st/b^2)*(-xd*st+yd*ct)] and
    [(2*st/a^2)*(xd*ct+yd*st) + (2*ct/b^2)*(-xd*st+yd*ct)]; for non-zero
    semi-axes these are the partial derivatives of [f] with respect to the
    coordinates [p.x] and [p.y] of the query point, and the negatives of
    its partial derivatives with respect to [center.x] and [center.y]. *)
Theorem C4_dx_dy_formula (e : Ellipse2D.t) (p : Vector2.t) :
  let xd := Vector2.x p - Vector2.x (Ellipse2D.center e) in
  let yd := Vector2.y p - Vector2.y (Ellipse2D.center e) in
  let ct := cos (Ellipse2D.theta e) in
  let st := sin (Ellipse2D.theta e) in
  let gx := (2 * ct / (Ellipse2D.a e ^ 2)) * (xd * ct + yd * st)
            + (- 2 * st / (Ellipse2D.b e ^ 2)) * (- xd * st + yd * ct) in
  let gy := (2 * st / (Ellipse2D.a e ^ 2)) * (xd * ct + yd * st)
            + (2 * ct / (Ellipse2D.b e ^ 2)) * (- xd * st + yd * ct) in
  Ellipse2D.dx e (Vec p) = Ok gx
  /\ Ellipse2D.dy e (Vec p) = Ok gy
  /\ (Ellipse2D.a e <> 0 -> Ellipse2D.b e <> 0 ->
      derivable_pt_lim (f_of_px e p) (Vector2.x p) gx
      /\ derivable_pt_lim (f_of_py e p) (Vector2.y p) gy
      /\ derivable_pt_lim (f_of_cx e p) (Vector2.x (Ellipse2D.center e)) (- gx)
      /\ derivable_pt_lim (f_of_cy e p) (Vector2.y (Ellipse2D.center e)) (- gy)).
Proof.
  cbv zeta. split; [reflexivity | split; [reflexivity | ]].
  intros Ha Hb. repeat split.
  - apply (f_of_px_deriv e p Ha Hb).
  - apply (f_of_py_deriv e p Ha Hb).
  - apply (f_of_cx_deriv e p Ha Hb).
  - apply (f_of_cy_deriv e p Ha Hb).
Qed.

(** On the ellipse with semi-axes 2 and 1 and the point [(1, 0)]: [dx]
    returns the derivative of [f] along [p.x]. *)
Lemma C4_witness :
  exists gx,
    Ellipse2D.dx Examples.ellipse21 (Vec Examples.p10) = Ok gx
    /\ derivable_pt_lim (f_of_px Examples.ellipse21 Examples.p10)
         (Vector2.x Examples.p10) gx
    /\ derivable_pt_lim (f_of_cx Examples.ellipse21 Examples.p10)
         (Vector2.x (Ellipse2D.center Examples.ellipse21)) (- gx).
Proof.
  assert (Ha : Ellipse2D.a Examples.ellipse21 <> 0) by (cbn; lra).
  assert (Hb : Ellipse2D.b Examples.ellipse21 <> 0) by (cbn; lra).
  destruct (C4_dx_dy_formula Examples.ellipse21 Examples.p10) as (Hdx & _ & H).
  destruct (H Ha Hb) as (Hpx & _ & Hcx & _).
  eexists. split; [exact Hdx | split; [exact Hpx | exact Hcx]].
Defined.

End EllipseGradient.

(** ** Ellipse2D: the buffer *)

Section EllipseBuffer.

Import Spec.
Open Scope R_scope.

Lemma init_buffer_invariant (a0 b0 th buf : R) (c : Vector2.t) (e : Ellipse2D.t) :
  Ellipse2D.__init__ a0 b0 (Vec c) th buf = Ok e ->
  Ellipse2D.BUFFER_FLAG e = true /\ buffer_invariant a0 b0 e.
Proof.
  intros H. injection H as <-. split; [reflexivity | ].
  intros _. split; reflexivity.
Qed.

Lemma update_buffer_invariant (a0 b0 v : R) (e : Ellipse2D.t) :
  buffer_invariant a0 b0 e ->
  buffer_invariant a0 b0 (fst (Ellipse2D.update None None None None (Some v) e)).
Proof.
  unfold buffer_invariant. destruct e as [c th a b buf fl].
  destruct fl; cbn; intros H Hfl; [ | discriminate].
  destruct (H eq_refl) as [-> ->]. split; ring.
Qed.

Lemma updateOrientation_buffer_invariant (a0 b0 yaw : R) (e : Ellipse2D.t) :
  buffer_invariant a0 b0 e ->
  buffer_invariant a0 b0 (fst (Ellipse2D.updateOrientation yaw e)).
Proof. intros H. exact H. Qed.

Lemma updateCoords_buffer_invariant (a0 b0 : R) (xy : value) (e : Ellipse2D.t) :
  buffer_invariant a0 b0 e ->
  buffer_invariant a0 b0 (fst (Ellipse2D.updateCoords xy e)).
Proof. intros H. destruct xy; exact H. Qed.

Lemma removeBuffer_applyBuffer (a0 b0 : R) (e : Ellipse2D.t) :
  Ellipse2D.BUFFER_FLAG e = true ->
  buffer_invariant a0 b0 e ->
  let e' := fst (Ellipse2D.applyBuffer (fst (Ellipse2D.removeBuffer e))) in
  buffer_invariant a0 b0 e' /\ Ellipse2D.a e' = Ellipse2D.a e
  /\ Ellipse2D.b e' = Ellipse2D.b e.
Proof.
  unfold buffer_invariant. destruct e as [c th a b buf fl]. cbn.
  intros -> H. destruct (H eq_refl) as [-> ->]. cbn.
  repeat split; ring.
Qed.

(** A refresh from an observation stores the bare extent and leaves the
    flag set. *)
Lemma updateByBoundingBox_fields (bb : BoundingBox.t) (e : Ellipse2D.t) :
  let r := Ellipse2D.updateByBoundingBox bb e in
  snd r = Ok tt
  /\ Ellipse2D.a (fst r) = BoundingBox.extent_x bb
  /\ Ellipse2D.b (fst r) = BoundingBox.extent_y bb
  /\ Ellipse2D.center (fst r)
     = Vector2.mk (BoundingBox.location_x bb) (BoundingBox.location_y bb)
  /\ Ellipse2D.theta (fst r) = BoundingBox.rotation_yaw bb
  /\ Ellipse2D.buffer (fst r) = Ellipse2D.buffer e
  /\ Ellipse2D.BUFFER_FLAG (fst r) = Ellipse2D.BUFFER_FLAG e.
Proof. cbn. repeat split. Qed.

Lemma updateByBoundingBox_breaks_invariant (bb : BoundingBox.t) (e : Ellipse2D.t) :
  Ellipse2D.BUFFER_FLAG e = true ->
  Ellipse2D.buffer e <> 0 ->
  ~ buffer_invariant (BoundingBox.extent_x bb) (BoundingBox.extent_y bb)
      (fst (Ellipse2D.updateByBoundingBox bb e)).
Proof.
  intros Hfl Hbuf Hinv.
  destruct (Hinv Hfl) as [Ha _]. cbn in Ha. lra.
Qed.

Lemma fromBoundingBox_buffer_invariant (bb : BoundingBox.t) (buf : R) (e : Ellipse2D.t) :
  Ellipse2D.fromBoundingBox true bb buf = Ok e ->
  buffer_invariant (BoundingBox.extent_x bb) (BoundingBox.extent_y bb) e.
Proof.
  intros H. apply init_buffer_invariant in H. apply H.
Qed.

(** C5, on the code.  [Ellipse2D(1, 1, buffer=0.5)] satisfies the invariant
    for the shape [(1, 1)]; after [updateByBoundingBox] with an observation
    of extent [(1, 1)] the flag is still set and the buffer still [0.5],
    but the stored semi-axes are the bare extent [(1, 1)]: the invariant
    for the observed shape is broken, and [removeBuffer] then shrinks the
    ellipse below the observed extent.  [fromBoundingBox] on the same
    observation and buffer establishes the invariant. *)
Theorem C5_updateByBoundingBox_drops_buffer :
  let r := Ellipse2D.updateByBoundingBox Examples.bbox11 Examples.buffered in
  Ellipse2D.__init__ 1 1 Ellipse2D.default_center Ellipse2D.default_theta (5 / 10)
    = Ok Examples.buffered
  /\ buffer_invariant 1 1 Examples.buffered
  /\ snd r = Ok tt
  /\ Ellipse2D.BUFFER_FLAG (fst r) = true
  /\ Ellipse2D.buffer (fst r) = 5 / 10
  /\ Ellipse2D.a (fst r) = 1
  /\ Ellipse2D.b (fst r) = 1
  /\ ~ buffer_invariant (BoundingBox.extent_x Examples.bbox11)
         (BoundingBox.extent_y Examples.bbox11) (fst r)
  /\ Ellipse2D.a (fst (Ellipse2D.removeBuffer (fst r))) = 1 - 5 / 10
  /\ exists e, Ellipse2D.fromBoundingBox true Examples.bbox11 (5 / 10) = Ok e
               /\ buffer_invariant (BoundingBox.extent_x Examples.bbox11)
                    (BoundingBox.extent_y Examples.bbox11) e.
Proof.
  cbv zeta. split; [reflexivity | ].
  split; [intros _; split; reflexivity | ].
  do 5 (split; [reflexivity | ]).
  split.
  - apply updateByBoundingBox_breaks_invariant; [reflexivity | cbn; lra].
  - split; [reflexivity | ].
    eexists. split; [reflexivity | ].
    intros _. split; reflexivity.
Qed.

(** C6.  [update(buffer=v)] with no other argument returns normally and sets
    the stored buffer to [v]; when the buffer is applied, [a] and [b] become
    [a - buffer + v] and [b - buffer + v], so the semi-axes without the
    buffer are unchanged; when it is not applied, [a] and [b] are untouched.
    Center, rotation and flag are unchanged. *)
Theorem C6_update_buffer (e : Ellipse2D.t) (v : R) :
  let r := Ellipse2D.update None None None None (Some v) e in
  let e' := fst r in
  snd r = Ok tt
  /\ Ellipse2D.buffer e' = v
  /\ Ellipse2D.center e' = Ellipse2D.center e
  /\ Ellipse2D.theta e' = Ellipse2D.theta e
  /\ Ellipse2D.BUFFER_FLAG e' = Ellipse2D.BUFFER_FLAG e
  /\ if Ellipse2D.BUFFER_FLAG e then
       Ellipse2D.a e' = Ellipse2D.a e - Ellipse2D.buffer e + v
       /\ Ellipse2D.b e' = Ellipse2D.b e - Ellipse2D.buffer e + v
       /\ Ellipse2D.a e' - Ellipse2D.buffer e' = Ellipse2D.a e - Ellipse2D.buffer e
       /\ Ellipse2D.b e' - Ellipse2D.buffer e' = Ellipse2D.b e - Ellipse2D.buffer e
     else
       Ellipse2D.a e' = Ellipse2D.a e /\ Ellipse2D.b e' = Ellipse2D.b e.
Proof.
  destruct e as [c th a b buf fl]. destruct fl; cbn; repeat split; ring.
Qed.

(** C7.  On every ellipse and every point [p], [dtheta] returns 0, and
    [gradient] returns [[dx(p), dy(p), dtheta(p)]], whose third entry is 0. *)
Theorem C7_dtheta_zero (e : Ellipse2D.t) (p : Vector2.t) :
  Ellipse2D.dtheta e (Vec p) = Ok 0
  /\ exists gx gy,
       Ellipse2D.dx e (Vec p) = Ok gx
       /\ Ellipse2D.dy e (Vec p) = Ok gy
       /\ Ellipse2D.gradient e (Vec p) = Ok [gx; gy; 0]
       /\ nth_error [gx; gy; 0] 2 = Some 0.
Proof.
  split; [reflexivity | ].
  exists (spec_dx e p), (spec_dy e p). repeat split.
Qed.

(** C8.  [applyBuffer] on an ellipse whose buffer is applied, and
    [removeBuffer] on one whose buffer is removed, leave the object as it
    was and issue one warning; so does a second [applyBuffer] (or
    [removeBuffer]) in a row, whatever the state before the first. *)
Theorem C8_redundant_toggle (e : Ellipse2D.t) :
  (Ellipse2D.BUFFER_FLAG e = true ->
   Ellipse2D.applyBuffer e = (e, [Ellipse2D.warn_applied]))
  /\ (Ellipse2D.BUFFER_FLAG e = false ->
      Ellipse2D.removeBuffer e = (e, [Ellipse2D.warn_removed]))
  /\ (let e1 := fst (Ellipse2D.applyBuffer e) in
      Ellipse2D.applyBuffer e1 = (e1, [Ellipse2D.warn_applied]))
  /\ (let e1 := fst (Ellipse2D.removeBuffer e) in
      Ellipse2D.removeBuffer e1 = (e1, [Ellipse2D.warn_removed])).
Proof.
  destruct e as [c th a b buf fl]. cbn. repeat split.
  - intros ->. reflexivity.
  - intros ->. reflexivity.
  - destruct fl; reflexivity.
  - destruct fl; reflexivity.
Qed.

Lemma C8_witness :
  Ellipse2D.applyBuffer Examples.buffered
    = (Examples.buffered, [Ellipse2D.warn_applied])
  /\ Ellipse2D.removeBuffer Examples.unbuffered
     = (Examples.unbuffered, [Ellipse2D.warn_removed]).
Proof.
  split.
  - destruct (C8_redundant_toggle Examples.buffered) as (H & _).
    apply H. reflexivity.
  - destruct (C8_redundant_toggle Examples.unbuffered) as (_ & H & _).
    apply H. reflexivity.
Defined.

End EllipseBuffer.

(** ** dict *)

Section DictFacts.

Context {V : Type}.

Lemma lookup_set_eq (key : Z) (v : V) (d : dict.t V) :
  dict.lookup key (dict.set key v d) = Some v.
Proof.
  induction d as [ | [k w] rest IH]; cbn.
  - rewrite Z.eqb_refl. reflexivity.
  - destruct (k =? key)%Z eqn:E; cbn; rewrite E; [reflexivity | exact IH].
Qed.

Lemma lookup_set_ne (key key' : Z) (v : V) (d : dict.t V) :
  key' <> key ->
  dict.lookup key' (dict.set key v d) = dict.lookup key' d.
Proof.
  intros Hne. induction d as [ | [k w] rest IH]; cbn.
  - destruct (key =? key')%Z eqn:E; [ | reflexivity].
    apply Z.eqb_eq in E. congruence.
  - destruct (k =? key)%Z eqn:E; cbn.
    + apply Z.eqb_eq in E. subst k.
      destruct (key =? key')%Z eqn:E'; [ | reflexivity].
      apply Z.eqb_eq in E'. congruence.
    + rewrite IH. reflexivity.
Qed.

(** A key that is set stays where it was, or goes last. *)
Lemma keys_set (key : Z) (v : V) (d : dict.t V) :
  dict.keys (dict.set key v d)
  = if dict.contains key d then dict.keys d else dict.keys d ++ [key].
Proof.
  unfold dict.contains, dict.keys. induction d as [ | [k w] rest IH]; cbn.
  - reflexivity.
  - destruct (k =? key)%Z eqn:E; cbn; [reflexivity | ].
    rewrite IH. destruct (dict.lookup key rest); reflexivity.
Qed.

Lemma length_remove (key : Z) (d : dict.t V) :
  dict.contains key d = true ->
  S (dict.len (dict.remove key d)) = dict.len d.
Proof.
  unfold dict.contains, dict.len. induction d as [ | [k w] rest IH]; cbn.
  - discriminate.
  - destruct (k =? key)%Z; cbn; [reflexivity | ].
    intros H. rewrite IH by exact H. reflexivity.
Qed.

Lemma values_set (key : Z) (v w : V) (d : dict.t V) :
  In w (dict.values (dict.set key v d)) -> w = v \/ In w (dict.values d).
Proof.
  unfold dict.values. induction d as [ | [k u] rest IH]; cbn.
  - intros [<- | []]. left. reflexivity.
  - destruct (k =? key)%Z; cbn.
    + intros [<- | H]; [left; reflexivity | right; right; exact H].
    + intros [<- | H]; [right; left; reflexivity | ].
      destruct (IH H) as [-> | H']; [left; reflexivity | right; right; exact H'].
Qed.

End DictFacts.

(** ** ObstacleList2D: insertion *)

Section Insertion.

Import ObstacleList2D.

(** C9.  [__setitem__] with a value that does not derive from
    [Obstacle2DBase] raises [TypeError] and leaves the collection as it
    was; with a value that does, it returns normally, the key is bound to
    that very object, and every other key and the heap are unchanged. *)
Theorem C9_setitem (self : ObstacleList2D.t) (key : Z) (value : addr) :
  let r := __setitem__ key value self in
  if derives_Obstacle2DBase (deref (heap self) value) then
    snd r = Ok tt
    /\ heap (fst r) = heap self
    /\ dict.lookup key (mapping (fst r)) = Some value
    /\ (forall key', key' <> key ->
          dict.lookup key' (mapping (fst r)) = dict.lookup key' (mapping self))
  else r = (self, Raise TypeError).
Proof.
  unfold __setitem__, bind, get, put, raise. cbn.
  destruct (derives_Obstacle2DBase (deref (heap self) value)); cbn.
  - repeat split.
    + apply lookup_set_eq.
    + intros key' Hne. apply lookup_set_ne. exact Hne.
  - reflexivity.
Qed.

(** Inserting the object at address 2 (no obstacle) under key 7 raises and
    changes nothing; inserting the one at address 1 binds key 7 and keeps
    key 1. *)
Lemma C9_witness :
  __setitem__ 7 2%nat Examples.collection_with_other
    = (Examples.collection_with_other, Raise TypeError)
  /\ dict.lookup 7
       (mapping (fst (__setitem__ 7 1%nat Examples.collection_with_other)))
     = Some 1%nat
  /\ dict.lookup 1
       (mapping (fst (__setitem__ 7 1%nat Examples.collection_with_other)))
     = dict.lookup 1 (mapping Examples.collection_with_other).
Proof.
  split; [ | split].
  - exact (C9_setitem Examples.collection_with_other 7 2%nat).
  - exact (proj1 (proj2 (proj2
      (C9_setitem Examples.collection_with_other 7 1%nat)))).
  - apply (proj2 (proj2 (proj2
      (C9_setitem Examples.collection_with_other 7 1%nat)))).
    discriminate.
Defined.

(** Insertion keeps every value of the collection an obstacle. *)
Lemma setitem_keeps_obstacles (self : ObstacleList2D.t) (key : Z) (value : addr) :
  Forall (fun r => derives_Obstacle2DBase (deref (heap self) r) = true)
         (dict.values (mapping self)) ->
  let self' := fst (__setitem__ key value self) in
  Forall (fun r => derives_Obstacle2DBase (deref (heap self') r) = true)
         (dict.values (mapping self')).
Proof.
  intros Hall. unfold __setitem__, bind, get, put, raise. cbn.
  destruct (derives_Obstacle2DBase (deref (heap self) value)) eqn:E; cbn.
  - apply Forall_forall. intros r Hr.
    destruct (values_set key value r (mapping self) Hr) as [-> | Hold].
    + exact E.
    + clear Hr. revert r Hold. apply Forall_forall. exact Hall.
  - exact Hall.
Qed.

End Insertion.

(** ** ObstacleList2D: reconciliation *)

Section Reconciliation.

Import ObstacleList2D.

(** With [carla] unbound, [fromBoundingBox] never returns. *)
Lemma fromBoundingBox_unbound (bb : BoundingBox.t) (buf : R) :
  Ellipse2D.fromBoundingBox carla_bound bb buf = Raise NameError.
Proof. reflexivity. Qed.

Lemma pop_present (key : Z) (self : ObstacleList2D.t) :
  dict.contains key (mapping self) = true ->
  exists r, pop key self
            = (set_mapping (dict.remove key (mapping self)) self, Ok r).
Proof.
  unfold pop, __getitem__, __delitem__, bind, get, put, ret, raise, dict.contains.
  destruct (dict.lookup key (mapping self)) as [r | ] eqn:E; [ | discriminate].
  intros _. exists r. cbn. unfold dict.contains. rewrite E. reflexivity.
Qed.

(** As the module is written, the first observed key that is new stops the
    call: nothing is inserted. *)
Lemma update_or_insert_new_key (key : Z) (bbox : BoundingBox.t)
    (rest : list (Z * BoundingBox.t)) (buffer : R) (self : ObstacleList2D.t) :
  dict.contains key (mapping self) = false ->
  update_or_insert carla_bound ((key, bbox) :: rest) ELLIPSE2D buffer self
  = (self, Raise NameError).
Proof.
  intros Hnew. cbn -[dict.contains]. unfold bind, get.
  rewrite Hnew. reflexivity.
Qed.

(** One step of the removal loop. *)
Lemma remove_vanished_step (obs_dict : dict.t BoundingBox.t) (todo : list Z)
    (used : nat) (self : ObstacleList2D.t) :
  remove_vanished obs_dict todo used self
  = if negb (dict.len (mapping self) =? used)%nat then (self, Raise RuntimeError)
    else match todo with
         | [] => (self, Ok tt)
         | key :: rest =>
             if negb (dict.contains key obs_dict) then
               match pop key self with
               | (self', Ok _) => remove_vanished obs_dict rest used self'
               | (self', Raise e) => (self', Raise e)
               end
             else remove_vanished obs_dict rest used self
         end.
Proof.
  destruct todo as [ | key rest]; cbn;
    destruct (negb (dict.len (mapping self) =? used)%nat); try reflexivity.
  destruct (negb (dict.contains key obs_dict)).
  - unfold bind. destruct (pop key self) as [self' [v | e]]; reflexivity.
  - reflexivity.
Qed.

(** The removal loop returns normally when it has nothing to remove. *)
Lemma remove_vanished_nothing (obs_dict : dict.t BoundingBox.t) (todo : list Z)
    (self : ObstacleList2D.t) :
  (forall key, In key todo -> dict.contains key obs_dict = true) ->
  remove_vanished obs_dict todo (dict.len (mapping self)) self = (self, Ok tt).
Proof.
  induction todo as [ | key rest IH]; intros Hall;
    rewrite remove_vanished_step, Nat.eqb_refl; cbn [negb].
  - reflexivity.
  - rewrite (Hall key) by (left; reflexivity). cbn [negb].
    apply IH. intros k Hk. apply Hall. right. exact Hk.
Qed.

(** As soon as it removes a key, it raises: the first vanished key is
    popped and the next step of the iteration fails. *)
Lemma remove_vanished_raises (obs_dict : dict.t BoundingBox.t)
    (seen later : list Z) (key : Z) (self : ObstacleList2D.t) :
  (forall k, In k seen -> dict.contains k obs_dict = true) ->
  dict.contains key obs_dict = false ->
  dict.contains key (mapping self) = true ->
  remove_vanished obs_dict (seen ++ key :: later) (dict.len (mapping self)) self
  = (set_mapping (dict.remove key (mapping self)) self, Raise RuntimeError).
Proof.
  intros Hseen Hgone Hin.
  induction seen as [ | k seen IH]; cbn [app];
    rewrite remove_vanished_step, Nat.eqb_refl; cbn [negb].
  - rewrite Hgone. cbn [negb].
    destruct (pop_present key self Hin) as [r ->].
    rewrite remove_vanished_step. cbn [mapping set_mapping].
    replace (dict.len (dict.remove key (mapping self)) =? dict.len (mapping self))%nat
      with false; [reflexivity | ].
    symmetry. apply Nat.eqb_neq.
    pose proof (length_remove key (mapping self) Hin). lia.
  - rewrite (Hseen k) by (left; reflexivity). cbn [negb].
    apply IH. intros k' Hk'. apply Hseen. right. exact Hk'.
Qed.

(** An empty observation on a collection that is not empty: the first
    obstacle is removed, then the call raises. *)
Lemma empty_observation_raises (carla : bool) (obs_type : Z) (buffer : R)
    (self : ObstacleList2D.t) (key : Z) (r : addr) (rest : dict.t addr) :
  mapping self = (key, r) :: rest ->
  updateByBoundingBox carla (Some []) obs_type buffer self
  = (set_mapping rest self, Raise RuntimeError).
Proof.
  intros Hm.
  assert (Hin : dict.contains key (mapping self) = true).
  { unfold dict.contains. rewrite Hm. cbn. rewrite Z.eqb_refl. reflexivity. }
  assert (Hrun : updateByBoundingBox carla (Some []) obs_type buffer self
                 = remove_vanished [] (dict.keys (mapping self))
                     (dict.len (mapping self)) self) by reflexivity.
  assert (Hkeys : dict.keys (mapping self) = [] ++ key :: dict.keys rest)
    by (rewrite Hm; reflexivity).
  rewrite Hrun, Hkeys.
  rewrite (remove_vanished_raises [] [] (dict.keys rest) key self
             (fun k (H : In k []) => match H with end) eq_refl Hin).
  rewrite Hm. cbn. rewrite Z.eqb_refl. reflexivity.
Qed.

(** As the module is written, the first loop never changes the mapping:
    it refreshes objects in the heap, or stops at a new key. *)
Lemma update_or_insert_mapping (items : list (Z * BoundingBox.t)) (obs_type : Z)
    (buffer : R) (self : ObstacleList2D.t) :
  mapping (fst (update_or_insert carla_bound items obs_type buffer self))
  = mapping self.
Proof.
  revert self. induction items as [ | [key bbox] rest IH]; intros self.
  - reflexivity.
  - cbn -[dict.contains]. unfold bind at 1. unfold bind at 1. unfold get at 1.
    destruct (dict.contains key (mapping self)) eqn:Hin.
    + unfold dict.contains in Hin.
      unfold bind at 1. unfold __getitem__ at 1. unfold bind at 1, get at 1.
      destruct (dict.lookup key (mapping self)) as [r | ]; [ | discriminate].
      unfold ret at 1. unfold call_updateByBoundingBox.
      unfold bind at 1. unfold get at 1.
      destruct (deref (heap self) r) as [ | e | ]; try reflexivity.
      destruct (Ellipse2D.updateByBoundingBox bbox e) as [e' [[] | err]] eqn:Hupd.
      * unfold bind at 1, put at 1, lift at 1. rewrite IH. reflexivity.
      * reflexivity.
    + destruct (obs_type =? ELLIPSE2D)%Z.
      * reflexivity.
      * unfold ret at 1. apply IH.
Qed.

(** The removal loop returns normally only when it removed nothing. *)
Lemma remove_vanished_returns (obs_dict : dict.t BoundingBox.t) (todo : list Z)
    (self self' : ObstacleList2D.t) :
  remove_vanished obs_dict todo (dict.len (mapping self)) self = (self', Ok tt) ->
  self' = self.
Proof.
  induction todo as [ | key rest IH];
    rewrite remove_vanished_step, Nat.eqb_refl; cbn [negb].
  - intros H. injection H as <-. reflexivity.
  - destruct (dict.contains key obs_dict); cbn [negb]; [exact IH | ].
    destruct (dict.contains key (mapping self)) eqn:Hin.
    + destruct (pop_present key self Hin) as [r ->].
      rewrite remove_vanished_step. cbn [mapping set_mapping].
      replace (dict.len (dict.remove key (mapping self))
               =? dict.len (mapping self))%nat with false; [discriminate | ].
      symmetry. apply Nat.eqb_neq.
      pose proof (length_remove key (mapping self) Hin). lia.
    + unfold pop, __getitem__, bind, get, raise. unfold dict.contains in Hin.
      destruct (dict.lookup key (mapping self)); discriminate.
Qed.

(** Hence, as the module is written, a call of [updateByBoundingBox] that
    returns has neither added nor removed a key. *)
Lemma updateByBoundingBox_returns_same_keys
    (obs_dict : option (dict.t BoundingBox.t)) (obs_type : Z) (buffer : R)
    (self self' : ObstacleList2D.t) :
  updateByBoundingBox carla_bound obs_dict obs_type buffer self = (self', Ok tt) ->
  mapping self' = mapping self.
Proof.
  destruct obs_dict as [obs | ]; cbn [updateByBoundingBox].
  - unfold bind at 1.
    pose proof (update_or_insert_mapping (dict.items obs) obs_type buffer self) as Hm.
    destruct (update_or_insert carla_bound (dict.items obs) obs_type buffer self)
      as [mid [[] | err]]; [ | discriminate].
    cbn [fst] in Hm. unfold bind at 1, get at 1. intros H.
    apply remove_vanished_returns in H. subst self'. exact Hm.
  - intros H. injection H as <-. reflexivity.
Qed.

(** C10, on the code.  With [obs_dict = None] the call returns normally and
    the collection is exactly as before.  With an empty observation on the
    collection with keys 1 and 2, the removal step removes key 1 only and
    the call raises [RuntimeError]; key 2 is still present. *)
Theorem C10_None_unchanged_empty_raises :
  (forall (carla : bool) (obs_type : Z) (buffer : R) (self : ObstacleList2D.t),
     updateByBoundingBox carla None obs_type buffer self = (self, Ok tt))
  /\ updateByBoundingBox carla_bound default_obs_dict default_obs_type
       default_buffer Examples.collection12
     = (Examples.collection12, Ok tt)
  /\ updateByBoundingBox carla_bound (Some []) default_obs_type
       default_buffer Examples.collection12
     = (set_mapping [(2%Z, 1%nat)] Examples.collection12, Raise RuntimeError).
Proof.
  split; [reflexivity | split; [reflexivity | ]].
  apply (empty_observation_raises carla_bound default_obs_type default_buffer
           Examples.collection12 1%Z 0%nat [(2%Z, 1%nat)]).
  reflexivity.
Qed.

(** C1, on the code.  Collection with keys 1 and 2, observation with keys 2
    and 3.  As the module is written ([carla] unbound) the call raises
    [NameError] when it reaches key 3: obstacle 2 has been refreshed where
    it lives, key 1 is still present and key 3 is absent.  Were [carla]
    bound, key 3 would be inserted at a fresh address, key 1 removed, and
    the call would raise [RuntimeError] at the next step of the removal
    loop.  In neither case does the call return. *)
Theorem C1_reconcile_scenario_raises :
  updateByBoundingBox carla_bound (Some Examples.observations23)
    default_obs_type default_buffer Examples.collection12
  = (ObstacleList2D.mk
       [EllipseObj Examples.obstacle1; EllipseObj Examples.obstacle2_refreshed]
       [(1%Z, 0%nat); (2%Z, 1%nat)],
     Raise NameError)
  /\ updateByBoundingBox true (Some Examples.observations23)
       default_obs_type default_buffer Examples.collection12
     = (ObstacleList2D.mk
          [EllipseObj Examples.obstacle1; EllipseObj Examples.obstacle2_refreshed;
           EllipseObj Examples.obstacle3]
          [(2%Z, 1%nat); (3%Z, 2%nat)],
        Raise RuntimeError).
Proof.
  split; reflexivity.
Qed.

End Reconciliation.

(** ** ObstacleList2D: batch evaluation *)

Section Batch.

Import ObstacleList2D.

Lemma setitem_middle {A : Type} (pre : list A) (x v : A) (tail : list A) :
  setitem (length pre) v (pre ++ x :: tail) = Ok (pre ++ v :: tail).
Proof.
  induction pre as [ | y pre IH]; cbn; [reflexivity | ].
  rewrite IH. reflexivity.
Qed.

(** The loop writes, from index [length pre] on, the value of [m] on each
    object in turn. *)
Lemma fill_map {A : Type} (m : object -> res A) (g : addr -> A)
    (h : list object) (vals : list addr) :
  (forall r, In r vals -> m (deref h r) = Ok (g r)) ->
  forall pre tail : list A,
    length tail = length vals ->
    fill m h vals (length pre) (pre ++ tail) = Ok (pre ++ map g vals).
Proof.
  induction vals as [ | r vals IH]; intros Hm pre tail Hlen.
  - destruct tail; [reflexivity | discriminate].
  - destruct tail as [ | x tail]; [discriminate | ].
    cbn [fill map]. rewrite (Hm r) by (left; reflexivity). cbn [res_bind].
    rewrite setitem_middle. cbn [res_bind].
    replace (S (length pre)) with (length (pre ++ [g r]))
      by (rewrite length_app; cbn; lia).
    replace (pre ++ g r :: tail) with ((pre ++ [g r]) ++ tail)
      by (rewrite <- app_assoc; reflexivity).
    rewrite IH.
    + rewrite <- app_assoc. reflexivity.
    + intros r' Hr'. apply Hm. right. exact Hr'.
    + cbn in Hlen. lia.
Qed.

Lemma fill_from_zero {A : Type} (m : object -> res A) (g : addr -> A)
    (h : list object) (vals : list addr) (zeros : list A) :
  (forall r, In r vals -> m (deref h r) = Ok (g r)) ->
  length zeros = length vals ->
  fill m h vals 0 zeros = Ok (map g vals).
Proof.
  intros Hm Hlen. exact (fill_map m g h vals Hm [] zeros Hlen).
Qed.

(** On an obstacle and a point every scalar method returns, and [gradient]
    returns the three derivatives in the order [dx], [dy], [dtheta]. *)
Lemma obstacle_calls (o : object) (p : Vector2.t) :
  derives_Obstacle2DBase o = true ->
  call_f o (Vec p) = Ok (returned (call_f o (Vec p)))
  /\ call_dx o (Vec p) = Ok (returned (call_dx o (Vec p)))
  /\ call_dy o (Vec p) = Ok (returned (call_dy o (Vec p)))
  /\ call_dtheta o (Vec p) = Ok (returned (call_dtheta o (Vec p)))
  /\ call_gradient o (Vec p)
     = Ok [returned (call_dx o (Vec p)); returned (call_dy o (Vec p));
           returned (call_dtheta o (Vec p))].
Proof.
  destruct o; [ | | discriminate]; intros _; repeat split.
Qed.

(** C2.  On a collection whose values are obstacles and a point [p], each of
    [f], [dx], [dy], [dtheta] returns the vector, of the length of the
    collection, of what the scalar method of the same name returns on each
    obstacle in iteration order, and [gradient] returns the matrix whose
    row [i] is [[dx_i(p), dy_i(p), dtheta_i(p)]] for the same obstacle [i]. *)
Theorem C2_batch_matches_scalar (self : ObstacleList2D.t) (p : Vector2.t) :
  Forall (fun r => derives_Obstacle2DBase (deref (heap self) r) = true)
         (dict.values (mapping self)) ->
  let obs := map (deref (heap self)) (dict.values (mapping self)) in
  let fv := map (fun o => returned (call_f o (Vec p))) obs in
  let xv := map (fun o => returned (call_dx o (Vec p))) obs in
  let yv := map (fun o => returned (call_dy o (Vec p))) obs in
  let tv := map (fun o => returned (call_dtheta o (Vec p))) obs in
  let G := map (fun o => [returned (call_dx o (Vec p));
                          returned (call_dy o (Vec p));
                          returned (call_dtheta o (Vec p))]) obs in
  f self (Vec p) = Ok fv
  /\ dx self (Vec p) = Ok xv
  /\ dy self (Vec p) = Ok yv
  /\ dtheta self (Vec p) = Ok tv
  /\ gradient self (Vec p) = Ok G
  /\ length fv = __len__ self /\ length xv = __len__ self
  /\ length yv = __len__ self /\ length tv = __len__ self
  /\ length G = __len__ self
  /\ (forall i o, nth_error obs i = Some o ->
        exists vf vx vy vt,
          call_f o (Vec p) = Ok vf /\ call_dx o (Vec p) = Ok vx
          /\ call_dy o (Vec p) = Ok vy /\ call_dtheta o (Vec p) = Ok vt
          /\ call_gradient o (Vec p) = Ok [vx; vy; vt]
          /\ nth_error fv i = Some vf /\ nth_error xv i = Some vx
          /\ nth_error yv i = Some vy /\ nth_error tv i = Some vt
          /\ nth_error G i = Some [vx; vy; vt]).
Proof.
  intros Hobs. cbv zeta.
  assert (Hcalls : forall r, In r (dict.values (mapping self)) ->
            derives_Obstacle2DBase (deref (heap self) r) = true).
  { apply Forall_forall. exact Hobs. }
  assert (Hlen : forall A (z : A),
            length (repeat z (dict.len (mapping self)))
            = length (dict.values (mapping self))).
  { intros A z. rewrite repeat_length. unfold dict.values, dict.len.
    rewrite length_map. reflexivity. }
  unfold f, dx, dy, dtheta, gradient, matrix_zeros, matrix_zeros2, __len__.
  rewrite !map_map, !length_map.
  repeat split.
  - apply fill_from_zero; [ | apply Hlen].
    intros r Hr. apply (obstacle_calls _ p (Hcalls r Hr)).
  - apply fill_from_zero; [ | apply Hlen].
    intros r Hr. apply (obstacle_calls _ p (Hcalls r Hr)).
  - apply fill_from_zero; [ | apply Hlen].
    intros r Hr. apply (obstacle_calls _ p (Hcalls r Hr)).
  - apply fill_from_zero; [ | apply Hlen].
    intros r Hr. apply (obstacle_calls _ p (Hcalls r Hr)).
  - apply fill_from_zero; [ | apply Hlen].
    intros r Hr. apply (obstacle_calls _ p (Hcalls r Hr)).
  - unfold dict.values, dict.len. apply length_map.
  - unfold dict.values, dict.len. apply length_map.
  - unfold dict.values, dict.len. apply length_map.
  - unfold dict.values, dict.len. apply length_map.
  - unfold dict.values, dict.len. apply length_map.
  - intros i o Hi. rewrite nth_error_map in Hi.
    destruct (nth_error (dict.values (mapping self)) i) as [r | ] eqn:Er;
      [ | discriminate].
    injection Hi as <-.
    assert (Ho : derives_Obstacle2DBase (deref (heap self) r) = true).
    { apply Hcalls. apply nth_error_In with i. exact Er. }
    destruct (obstacle_calls _ p Ho) as (Hf & Hx & Hy & Ht & Hg).
    do 4 eexists.
    repeat split; try eassumption; rewrite nth_error_map, Er; reflexivity.
Qed.

(** The collection with keys 1 and 2 holds two ellipses: [f] returns their
    two values in order and [gradient] their two rows. *)
Lemma C2_witness :
  f Examples.collection12 (Vec Examples.p10)
  = Ok [returned (Ellipse2D.f Examples.obstacle1 (Vec Examples.p10));
        returned (Ellipse2D.f Examples.obstacle2 (Vec Examples.p10))]
  /\ gradient Examples.collection12 (Vec Examples.p10)
     = Ok [[returned (Ellipse2D.dx Examples.obstacle1 (Vec Examples.p10));
            returned (Ellipse2D.dy Examples.obstacle1 (Vec Examples.p10));
            returned (Ellipse2D.dtheta Examples.obstacle1 (Vec Examples.p10))];
           [returned (Ellipse2D.dx Examples.obstacle2 (Vec Examples.p10));
            returned (Ellipse2D.dy Examples.obstacle2 (Vec Examples.p10));
            returned (Ellipse2D.dtheta Examples.obstacle2 (Vec Examples.p10))]].
Proof.
  assert (Hobs : Forall
            (fun r => derives_Obstacle2DBase
                        (deref (heap Examples.collection12) r) = true)
            (dict.values (mapping Examples.collection12))).
  { repeat constructor. }
  destruct (C2_batch_matches_scalar Examples.collection12 Examples.p10 Hobs)
    as (Hf & _ & _ & _ & Hg & _).
  split; [exact Hf | exact Hg].
Defined.

End Batch.

(** * Further properties of the code *)

(** ** Ellipse2D: geometry of [f] and its gradient *)

Section EllipseGeometry.

Import Spec.
Open Scope R_scope.

(** The frame coordinates determine the offset from the center. *)
Lemma offset_of_frame (xd yd ct st u v : R) :
  ct * ct + st * st = 1 ->
  u = xd * ct + yd * st -> v = - xd * st + yd * ct ->
  xd = u * ct - v * st /\ yd = u * st + v * ct.
Proof.
  intros H -> ->. split.
  - transitivity (xd * (ct * ct + st * st)); [rewrite H; ring | ring].
  - transitivity (yd * (ct * ct + st * st)); [rewrite H; ring | ring].
Qed.

Lemma quotient_sq_zero (u a : R) : a <> 0 -> (u / a) ^ 2 = 0 -> u = 0.
Proof.
  intros Ha H.
  assert (Hq : u / a = 0) by nra.
  replace u with (u / a * a) by (field; exact Ha). rewrite Hq. ring.
Qed.

Lemma vector_eq (p c : Vector2.t) :
  Vector2.x p - Vector2.x c = 0 -> Vector2.y p - Vector2.y c = 0 -> p = c.
Proof.
  destruct p, c. cbn. intros Hx Hy. f_equal; lra.
Qed.

(** [f] is at least [-1], and equal to [-1] at the center only. *)
Theorem f_minimum_at_center (e : Ellipse2D.t) (p : Vector2.t) :
  Ellipse2D.a e <> 0 -> Ellipse2D.b e <> 0 ->
  exists v,
    Ellipse2D.f e (Vec p) = Ok v
    /\ -1 <= v
    /\ (v = -1 <-> p = Ellipse2D.center e).
Proof.
  intros Ha Hb. exists (spec_f e p). split; [reflexivity | ].
  unfold spec_f. cbv zeta.
  set (xd := Vector2.x p - Vector2.x (Ellipse2D.center e)).
  set (yd := Vector2.y p - Vector2.y (Ellipse2D.center e)).
  set (ct := cos (Ellipse2D.theta e)). set (st := sin (Ellipse2D.theta e)).
  pose proof (pow2_ge_0 ((xd * ct + yd * st) / Ellipse2D.a e)) as Hu.
  pose proof (pow2_ge_0 ((- xd * st + yd * ct) / Ellipse2D.b e)) as Hv.
  split; [lra | split].
  - intros H.
    assert (Hu0 : xd * ct + yd * st = 0)
      by (apply (quotient_sq_zero _ (Ellipse2D.a e) Ha); lra).
    assert (Hv0 : - xd * st + yd * ct = 0)
      by (apply (quotient_sq_zero _ (Ellipse2D.b e) Hb); lra).
    destruct (offset_of_frame xd yd ct st 0 0
                (cos2_sin2_one (Ellipse2D.theta e))) as [Hx Hy];
      [symmetry; exact Hu0 | symmetry; exact Hv0 | ].
    apply vector_eq; fold xd yd; lra.
  - intros Hp. subst xd yd. rewrite Hp.
    unfold Rminus. rewrite !Rplus_opp_r. field. split; assumption.
Qed.

Lemma f_minimum_at_center_witness :
  exists v, Ellipse2D.f Examples.ellipse21 (Vec Examples.p10) = Ok v /\ -1 <= v.
Proof.
  assert (Ha : Ellipse2D.a Examples.ellipse21 <> 0) by (cbn; lra).
  assert (Hb : Ellipse2D.b Examples.ellipse21 <> 0) by (cbn; lra).
  destruct (f_minimum_at_center Examples.ellipse21 Examples.p10 Ha Hb)
    as (v & Hf & Hge & _).
  exists v. split; assumption.
Defined.

(** Euler's identity for the quadratic form: the offset from the center
    paired with [(dx, dy)] is twice [f + 1]. *)
Theorem gradient_euler_identity (e : Ellipse2D.t) (p : Vector2.t) :
  Ellipse2D.a e <> 0 -> Ellipse2D.b e <> 0 ->
  exists v gx gy,
    Ellipse2D.f e (Vec p) = Ok v
    /\ Ellipse2D.dx e (Vec p) = Ok gx
    /\ Ellipse2D.dy e (Vec p) = Ok gy
    /\ (Vector2.x p - Vector2.x (Ellipse2D.center e)) * gx
       + (Vector2.y p - Vector2.y (Ellipse2D.center e)) * gy
       = 2 * (v + 1).
Proof.
  intros Ha Hb. exists (spec_f e p), (spec_dx e p), (spec_dy e p).
  repeat split. unfold spec_f, spec_dx, spec_dy. cbv zeta.
  field. split; assumption.
Qed.

Lemma gradient_euler_identity_witness :
  exists v gx gy,
    Ellipse2D.f Examples.ellipse21 (Vec Examples.p10) = Ok v
    /\ Ellipse2D.dx Examples.ellipse21 (Vec Examples.p10) = Ok gx
    /\ Ellipse2D.dy Examples.ellipse21 (Vec Examples.p10) = Ok gy
    /\ (1 - 0) * gx + (0 - 0) * gy = 2 * (v + 1).
Proof.
  apply (gradient_euler_identity Examples.ellipse21 Examples.p10); cbn; lra.
Defined.

(** [(dx, dy)] vanishes at the center and nowhere else. *)
Theorem gradient_zero_iff_center (e : Ellipse2D.t) (p : Vector2.t) :
  Ellipse2D.a e <> 0 -> Ellipse2D.b e <> 0 ->
  exists gx gy,
    Ellipse2D.dx e (Vec p) = Ok gx
    /\ Ellipse2D.dy e (Vec p) = Ok gy
    /\ (gx = 0 /\ gy = 0 <-> p = Ellipse2D.center e).
Proof.
  intros Ha Hb. exists (spec_dx e p), (spec_dy e p).
  split; [reflexivity | split; [reflexivity | ]].
  unfold spec_dx, spec_dy. cbv zeta.
  set (xd := Vector2.x p - Vector2.x (Ellipse2D.center e)).
  set (yd := Vector2.y p - Vector2.y (Ellipse2D.center e)).
  pose proof (cos2_sin2_one (Ellipse2D.theta e)) as H1.
  set (ct := cos (Ellipse2D.theta e)) in *.
  set (st := sin (Ellipse2D.theta e)) in *.
  set (a := Ellipse2D.a e) in *. set (b := Ellipse2D.b e) in *.
  split.
  - intros [Hx Hy].
    set (u := xd * ct + yd * st) in *. set (v := - xd * st + yd * ct) in *.
    assert (Hu : u = 0).
    { assert (E : 2 * u = a ^ 2 * (ct * (2 * ct / a ^ 2 * u + - 2 * st / b ^ 2 * v)
                                  + st * (2 * st / a ^ 2 * u + 2 * ct / b ^ 2 * v))).
      { transitivity (2 * u * (ct * ct + st * st)); [rewrite H1; ring | ].
        field. split; assumption. }
      rewrite Hx, Hy in E. lra. }
    assert (Hv : v = 0).
    { assert (E : 2 * v = b ^ 2 * (- st * (2 * ct / a ^ 2 * u + - 2 * st / b ^ 2 * v)
                                  + ct * (2 * st / a ^ 2 * u + 2 * ct / b ^ 2 * v))).
      { transitivity (2 * v * (ct * ct + st * st)); [rewrite H1; ring | ].
        field. split; assumption. }
      rewrite Hx, Hy in E. lra. }
    destruct (offset_of_frame xd yd ct st u v H1 eq_refl eq_refl) as [Ex Ey].
    apply vector_eq; fold xd yd; rewrite ?Ex, ?Ey, Hu, Hv; ring.
  - intros Hp. subst xd yd. rewrite Hp.
    unfold Rminus. rewrite !Rplus_opp_r. split; field; split; assumption.
Qed.

Lemma gradient_zero_iff_center_witness :
  exists gx gy,
    Ellipse2D.dx Examples.ellipse21 (Vec (Vector2.mk 0 0)) = Ok gx
    /\ Ellipse2D.dy Examples.ellipse21 (Vec (Vector2.mk 0 0)) = Ok gy
    /\ gx = 0 /\ gy = 0.
Proof.
  assert (Ha : Ellipse2D.a Examples.ellipse21 <> 0) by (cbn; lra).
  assert (Hb : Ellipse2D.b Examples.ellipse21 <> 0) by (cbn; lra).
  destruct (gradient_zero_iff_center Examples.ellipse21 (Vector2.mk 0 0) Ha Hb)
    as (gx & gy & Hx & Hy & Hiff).
  exists gx, gy. split; [exact Hx | split; [exact Hy | ]].
  apply Hiff. reflexivity.
Defined.

End EllipseGeometry.

(** ** Ellipse2D: symmetries and inflation *)

Section EllipseSymmetry.

Import Spec.
Open Scope R_scope.

(** Reflection of a point through the center of the ellipse. *)
Theorem point_reflection (e : Ellipse2D.t) (p : Vector2.t) :
  let q := Vector2.mk (2 * Vector2.x (Ellipse2D.center e) - Vector2.x p)
                      (2 * Vector2.y (Ellipse2D.center e) - Vector2.y p) in
  exists v gx gy,
    Ellipse2D.f e (Vec p) = Ok v /\ Ellipse2D.f e (Vec q) = Ok v
    /\ Ellipse2D.dx e (Vec p) = Ok gx /\ Ellipse2D.dx e (Vec q) = Ok (- gx)
    /\ Ellipse2D.dy e (Vec p) = Ok gy /\ Ellipse2D.dy e (Vec q) = Ok (- gy).
Proof.
  cbv zeta. exists (spec_f e p), (spec_dx e p), (spec_dy e p).
  repeat split; unfold Ellipse2D.f; rewrite ?evaluate_Vec, ?dx_Vec, ?dy_Vec;
    f_equal; unfold spec_f, spec_dx, spec_dy; cbn [Vector2.x Vector2.y];
    unfold Rdiv; ring.
Qed.

(** A half turn of the ellipse changes neither [f] nor [dx], [dy]. *)
Theorem half_turn (e : Ellipse2D.t) (p : value) :
  let e' := fst (Ellipse2D.updateOrientation (Ellipse2D.theta e + PI) e) in
  Ellipse2D.f e' p = Ellipse2D.f e p
  /\ Ellipse2D.dx e' p = Ellipse2D.dx e p
  /\ Ellipse2D.dy e' p = Ellipse2D.dy e p.
Proof.
  cbv zeta. destruct p as [p | ]; [ | repeat split].
  unfold Ellipse2D.f. rewrite !evaluate_Vec, !dx_Vec, !dy_Vec.
  unfold spec_f, spec_dx, spec_dy. cbn.
  rewrite neg_cos, neg_sin.
  repeat split; f_equal; unfold Rdiv; ring.
Qed.

(** Moving the ellipse and the point by the same vector changes nothing. *)
Theorem translation (e : Ellipse2D.t) (p : Vector2.t) (tx ty : R) :
  let c' := Vector2.mk (Vector2.x (Ellipse2D.center e) + tx)
                       (Vector2.y (Ellipse2D.center e) + ty) in
  let p' := Vector2.mk (Vector2.x p + tx) (Vector2.y p + ty) in
  exists e',
    Ellipse2D.updateCoords (Vec c') e = (e', Ok tt)
    /\ Ellipse2D.f e' (Vec p') = Ellipse2D.f e (Vec p)
    /\ Ellipse2D.gradient e' (Vec p') = Ellipse2D.gradient e (Vec p).
Proof.
  cbv zeta. eexists. split; [reflexivity | ].
  assert (Hx : spec_dx
            (Ellipse2D.set_center
               (Vector2.mk (Vector2.x (Ellipse2D.center e) + tx)
                           (Vector2.y (Ellipse2D.center e) + ty)) e)
            (Vector2.mk (Vector2.x p + tx) (Vector2.y p + ty)) = spec_dx e p).
  { unfold spec_dx. cbn. unfold Rdiv. ring. }
  assert (Hy : spec_dy
            (Ellipse2D.set_center
               (Vector2.mk (Vector2.x (Ellipse2D.center e) + tx)
                           (Vector2.y (Ellipse2D.center e) + ty)) e)
            (Vector2.mk (Vector2.x p + tx) (Vector2.y p + ty)) = spec_dy e p).
  { unfold spec_dy. cbn. unfold Rdiv. ring. }
  split.
  - unfold Ellipse2D.f. rewrite !evaluate_Vec. f_equal.
    unfold spec_f. cbn. unfold Rdiv. ring.
  - unfold Ellipse2D.gradient. rewrite !dx_Vec, !dy_Vec. cbn [res_bind Obstacle2DBase.gradient Obstacle2DBase.require_Vector2 isinstance_Vector2 negb Ellipse2D.dtheta Obstacle2DBase.dtheta].
    rewrite Hx, Hy. reflexivity.
Qed.

(** For equal semi-axes the ellipse is a circle: [f] does not depend on
    the rotation. *)
Theorem circle_value (e : Ellipse2D.t) (p : Vector2.t) :
  Ellipse2D.a e <> 0 -> Ellipse2D.b e = Ellipse2D.a e ->
  Ellipse2D.f e (Vec p)
  = Ok (((Vector2.x p - Vector2.x (Ellipse2D.center e)) ^ 2
         + (Vector2.y p - Vector2.y (Ellipse2D.center e)) ^ 2)
        / Ellipse2D.a e ^ 2 - 1).
Proof.
  intros Ha Hb. unfold Ellipse2D.f. rewrite evaluate_Vec. f_equal.
  unfold spec_f. cbv zeta. rewrite Hb.
  pose proof (cos2_sin2_one (Ellipse2D.theta e)) as H1.
  set (xd := Vector2.x p - Vector2.x (Ellipse2D.center e)).
  set (yd := Vector2.y p - Vector2.y (Ellipse2D.center e)).
  set (ct := cos (Ellipse2D.theta e)) in *.
  set (st := sin (Ellipse2D.theta e)) in *.
  transitivity ((xd ^ 2 + yd ^ 2) * (ct * ct + st * st) / Ellipse2D.a e ^ 2 - 1).
  - field. exact Ha.
  - rewrite H1. field. exact Ha.
Qed.

Lemma circle_value_witness :
  Ellipse2D.f Examples.unbuffered (Vec MoreExamples.p34)
  = Ok (((3 - 0) ^ 2 + (4 - 0) ^ 2) / 1 ^ 2 - 1).
Proof.
  apply (circle_value Examples.unbuffered MoreExamples.p34);
    [cbn; lra | reflexivity].
Defined.

Lemma quotient_sq_antitone (u a a' : R) :
  0 < a -> a <= a' -> (u / a') ^ 2 <= (u / a) ^ 2.
Proof.
  intros Ha Hle.
  assert (Ha' : 0 < a') by lra.
  assert (Hi : / a' <= / a) by (apply Rinv_le_contravar; assumption).
  assert (Hp : 0 < / a') by (apply Rinv_0_lt_compat; exact Ha').
  unfold Rdiv.
  replace ((u * / a') ^ 2) with (u ^ 2 * (/ a' * / a')) by ring.
  replace ((u * / a) ^ 2) with (u ^ 2 * (/ a * / a)) by ring.
  apply Rmult_le_compat_l; [apply pow2_ge_0 | nra].
Qed.

(** Applying a non-negative buffer to an ellipse with positive semi-axes
    does not raise [f] anywhere: the inflated obstacle is the more
    conservative one. *)
Theorem applyBuffer_lowers_f (e : Ellipse2D.t) (p : Vector2.t) :
  Ellipse2D.BUFFER_FLAG e = false ->
  0 < Ellipse2D.a e -> 0 < Ellipse2D.b e -> 0 <= Ellipse2D.buffer e ->
  exists v v',
    Ellipse2D.f e (Vec p) = Ok v
    /\ Ellipse2D.f (fst (Ellipse2D.applyBuffer e)) (Vec p) = Ok v'
    /\ v' <= v.
Proof.
  intros Hfl Ha Hb Hbuf. destruct e as [c th a b buf fl]. cbn in *. subst fl.
  eexists _, _. split; [reflexivity | split; [reflexivity | ]].
  cbn [Ellipse2D.applyBuffer Ellipse2D.BUFFER_FLAG negb fst Ellipse2D.set_a
       Ellipse2D.set_b Ellipse2D.set_BUFFER_FLAG Ellipse2D.a Ellipse2D.b
       Ellipse2D.center Ellipse2D.theta Ellipse2D.buffer].
  pose proof (quotient_sq_antitone
    ((Vector2.x p - Vector2.x c) * cos th + (Vector2.y p - Vector2.y c) * sin th)
    a (a + buf) Ha ltac:(lra)).
  pose proof (quotient_sq_antitone
    (- (Vector2.x p - Vector2.x c) * sin th + (Vector2.y p - Vector2.y c) * cos th)
    b (b + buf) Hb ltac:(lra)).
  lra.
Qed.

Lemma applyBuffer_lowers_f_witness :
  exists v v',
    Ellipse2D.f Examples.unbuffered (Vec MoreExamples.p34) = Ok v
    /\ Ellipse2D.f (fst (Ellipse2D.applyBuffer Examples.unbuffered))
         (Vec MoreExamples.p34) = Ok v'
    /\ v' <= v.
Proof.
  apply (applyBuffer_lowers_f Examples.unbuffered MoreExamples.p34);
    [reflexivity | cbn; lra | cbn; lra | cbn; lra].
Defined.

End EllipseSymmetry.

(** ** Ellipse2D: state *)

Section EllipseState.

Import Spec.
Open Scope R_scope.

Lemma ellipse_eq (c : Vector2.t) (th a a' b b' buf : R) (fl : bool) :
  a = a' -> b = b' ->
  Ellipse2D.mk c th a b buf fl = Ellipse2D.mk c th a' b' buf fl.
Proof. intros -> ->. reflexivity. Qed.

(** Brings an ellipse built by the setters to the form of a record. *)
Ltac ellipse_record :=
  unfold Ellipse2D.set_BUFFER_FLAG, Ellipse2D.set_buffer, Ellipse2D.set_b,
    Ellipse2D.set_a, Ellipse2D.set_theta, Ellipse2D.set_center;
  cbn [Ellipse2D.center Ellipse2D.theta Ellipse2D.a Ellipse2D.b
       Ellipse2D.buffer Ellipse2D.BUFFER_FLAG].

(** Removing an applied buffer and applying it again, or applying a removed
    buffer and removing it again, gives back the ellipse, with no warning. *)
Theorem buffer_round_trip (e : Ellipse2D.t) :
  if Ellipse2D.BUFFER_FLAG e then
    exists e1, Ellipse2D.removeBuffer e = (e1, [])
               /\ Ellipse2D.BUFFER_FLAG e1 = false
               /\ Ellipse2D.applyBuffer e1 = (e, [])
  else
    exists e1, Ellipse2D.applyBuffer e = (e1, [])
               /\ Ellipse2D.BUFFER_FLAG e1 = true
               /\ Ellipse2D.removeBuffer e1 = (e, []).
Proof.
  destruct e as [c th a b buf fl]. destruct fl; cbn;
    eexists; (split; [reflexivity | split; [reflexivity | ]]);
    cbn; f_equal; ellipse_record; apply ellipse_eq; ring.
Qed.


(** [update] raises exactly when a center is given that is no [Vector2];
    then [a] and [b] have already been assigned, and center, rotation and
    buffer are as before, whatever was passed for them. *)
Theorem update_bad_center (a' b' theta' buffer' : option R) (center' : option value)
    (e : Ellipse2D.t) :
  let r := Ellipse2D.update a' b' center' theta' buffer' e in
  (snd r = Ok tt <-> center' <> Some NotVec)
  /\ (center' = Some NotVec ->
      snd r = Raise TypeError
      /\ Ellipse2D.a (fst r) = match a' with Some v => v | None => Ellipse2D.a e end
      /\ Ellipse2D.b (fst r) = match b' with Some v => v | None => Ellipse2D.b e end
      /\ Ellipse2D.center (fst r) = Ellipse2D.center e
      /\ Ellipse2D.theta (fst r) = Ellipse2D.theta e
      /\ Ellipse2D.buffer (fst r) = Ellipse2D.buffer e
      /\ Ellipse2D.BUFFER_FLAG (fst r) = Ellipse2D.BUFFER_FLAG e).
Proof.
  cbv zeta. split.
  - destruct center' as [[c | ] | ].
    + split; [intros _; discriminate | intros _].
      destruct a', b', theta', buffer', e as [c0 th a b buf []]; reflexivity.
    + split; [ | intros H; contradiction H; reflexivity].
      destruct a', b'; discriminate.
    + split; [intros _; discriminate | intros _].
      destruct a', b', theta', buffer', e as [c0 th a b buf []]; reflexivity.
  - intros ->. destruct a', b'; repeat split.
Qed.

Lemma update_bad_center_witness :
  snd (Ellipse2D.update (Some 3) None (Some NotVec) (Some 1) (Some 2)
         Examples.buffered) = Raise TypeError
  /\ Ellipse2D.a (fst (Ellipse2D.update (Some 3) None (Some NotVec) (Some 1)
                         (Some 2) Examples.buffered)) = 3
  /\ Ellipse2D.theta (fst (Ellipse2D.update (Some 3) None (Some NotVec) (Some 1)
                             (Some 2) Examples.buffered))
     = Ellipse2D.theta Examples.buffered.
Proof.
  destruct (update_bad_center (Some 3) None (Some 1) (Some 2) (Some NotVec)
              Examples.buffered) as (_ & H).
  destruct (H eq_refl) as (Hr & Ha & _ & _ & Hth & _).
  split; [exact Hr | split; [exact Ha | exact Hth]].
Defined.

(** Two buffer updates in a row amount to the second one; setting the old
    buffer again restores the ellipse. *)
Theorem update_buffer_compose (e : Ellipse2D.t) (v w : R) :
  let upd := fun x s => fst (Ellipse2D.update None None None None (Some x) s) in
  upd w (upd v e) = upd w e
  /\ upd (Ellipse2D.buffer e) (upd v e) = e.
Proof.
  destruct e as [c th a b buf fl]. destruct fl; cbn; split;
    try reflexivity; ellipse_record; apply ellipse_eq; ring.
Qed.

(** A refresh from an observation never raises and forgets the previous
    pose and shape: only the last observation counts, the buffer and its
    flag stay. *)
Theorem updateByBoundingBox_last_wins (bb1 bb2 : BoundingBox.t) (e : Ellipse2D.t) :
  let refresh := fun bb s => fst (Ellipse2D.updateByBoundingBox bb s) in
  snd (Ellipse2D.updateByBoundingBox bb2 e) = Ok tt
  /\ refresh bb2 (refresh bb1 e) = refresh bb2 e
  /\ refresh bb2 e
     = Ellipse2D.mk
         (Vector2.mk (BoundingBox.location_x bb2) (BoundingBox.location_y bb2))
         (BoundingBox.rotation_yaw bb2)
         (BoundingBox.extent_x bb2) (BoundingBox.extent_y bb2)
         (Ellipse2D.buffer e) (Ellipse2D.BUFFER_FLAG e).
Proof. repeat split. Qed.

(** Every evaluation method refuses an argument that is no [Vector2] with
    [TypeError], before reading any of its attributes; [updateCoords] does
    too, and leaves the ellipse as it was. *)
Theorem ellipse_requires_Vector2 (e : Ellipse2D.t) :
  Ellipse2D.evaluate e NotVec = Raise TypeError
  /\ Ellipse2D.f e NotVec = Raise TypeError
  /\ Ellipse2D.dx e NotVec = Raise TypeError
  /\ Ellipse2D.dy e NotVec = Raise TypeError
  /\ Ellipse2D.dtheta e NotVec = Raise TypeError
  /\ Ellipse2D.gradient e NotVec = Raise TypeError
  /\ Ellipse2D.updateCoords NotVec e = (e, Raise TypeError).
Proof. repeat split. Qed.

End EllipseState.

(** ** dict: keys and their order *)

Section DictOrder.

Context {V : Type}.

Lemma contains_In (key : Z) (d : dict.t V) :
  dict.contains key d = true <-> In key (dict.keys d).
Proof.
  unfold dict.contains, dict.keys. induction d as [ | [k w] rest IH]; cbn.
  - split; [discriminate | intros []].
  - destruct (k =? key)%Z eqn:E.
    + apply Z.eqb_eq in E. split; [intros _; left; exact E | reflexivity].
    + apply Z.eqb_neq in E. rewrite IH. split; [right; assumption | ].
      intros [H | H]; [contradiction | exact H].
Qed.

Lemma contains_false_In (key : Z) (d : dict.t V) :
  dict.contains key d = false <-> ~ In key (dict.keys d).
Proof.
  rewrite <- contains_In. destruct (dict.contains key d); split;
    congruence.
Qed.

Lemma lookup_remove_ne (key key' : Z) (d : dict.t V) :
  key' <> key -> dict.lookup key' (dict.remove key d) = dict.lookup key' d.
Proof.
  intros Hne. induction d as [ | [k w] rest IH]; cbn; [reflexivity | ].
  destruct (k =? key)%Z eqn:E; cbn.
  - apply Z.eqb_eq in E. subst k.
    destruct (key =? key')%Z eqn:E'; [ | reflexivity].
    apply Z.eqb_eq in E'. congruence.
  - rewrite IH. reflexivity.
Qed.

Lemma keys_remove (key : Z) (d : dict.t V) :
  NoDup (dict.keys d) ->
  dict.keys (dict.remove key d)
  = filter (fun k => negb (k =? key)%Z) (dict.keys d).
Proof.
  unfold dict.keys. induction d as [ | [k w] rest IH]; cbn; [reflexivity | ].
  intros Hnd. inversion Hnd as [ | ? ? Hk Hrest]; subst.
  destruct (k =? key)%Z eqn:E; cbn.
  - apply Z.eqb_eq in E. subst k. symmetry.
    apply forallb_filter_id. apply forallb_forall. intros k' Hk'.
    apply negb_true_iff. apply Z.eqb_neq. intros ->. contradiction.
  - rewrite IH by exact Hrest. reflexivity.
Qed.

Lemma lookup_remove_eq (key : Z) (d : dict.t V) :
  NoDup (dict.keys d) -> dict.lookup key (dict.remove key d) = None.
Proof.
  intros Hnd.
  assert (H : dict.contains key (dict.remove key d) = false).
  { apply contains_false_In. rewrite keys_remove by exact Hnd.
    intros Hin. apply filter_In in Hin. destruct Hin as [_ Hin].
    rewrite Z.eqb_refl in Hin. discriminate. }
  unfold dict.contains in H.
  destruct (dict.lookup key (dict.remove key d)); [discriminate | reflexivity].
Qed.

Lemma NoDup_keys_set (key : Z) (v : V) (d : dict.t V) :
  NoDup (dict.keys d) -> NoDup (dict.keys (dict.set key v d)).
Proof.
  intros Hnd. rewrite keys_set. destruct (dict.contains key d) eqn:E.
  - exact Hnd.
  - apply contains_false_In in E.
    apply NoDup_app; [exact Hnd | repeat constructor; intros [] | ].
    intros k Hk [<- | []]. contradiction.
Qed.

Lemma NoDup_keys_remove (key : Z) (d : dict.t V) :
  NoDup (dict.keys d) -> NoDup (dict.keys (dict.remove key d)).
Proof.
  intros Hnd. rewrite keys_remove by exact Hnd. apply NoDup_filter. exact Hnd.
Qed.

End DictOrder.

Section Mapping.

Import ObstacleList2D.

(** What is stored can be read back. *)
Theorem setitem_getitem (self : ObstacleList2D.t) (key : Z) (value : addr) :
  derives_Obstacle2DBase (deref (heap self) value) = true ->
  exists self',
    __setitem__ key value self = (self', Ok tt)
    /\ __getitem__ key self' = (self', Ok value).
Proof.
  intros Hd. unfold __setitem__, __getitem__, bind, get, put, ret, raise.
  cbn. rewrite Hd. cbn. eexists. split; [reflexivity | ].
  cbn. rewrite lookup_set_eq. reflexivity.
Qed.

Lemma setitem_getitem_witness :
  exists self',
    __setitem__ 7 0%nat Examples.collection12 = (self', Ok tt)
    /\ __getitem__ 7 self' = (self', Ok 0%nat).
Proof.
  apply (setitem_getitem Examples.collection12 7 0%nat). reflexivity.
Defined.

(** Overwriting a key keeps the iteration order and the length; a new key
    goes last. *)
Theorem setitem_order (self : ObstacleList2D.t) (key : Z) (value : addr) :
  derives_Obstacle2DBase (deref (heap self) value) = true ->
  let self' := fst (__setitem__ key value self) in
  if dict.contains key (mapping self) then
    __iter__ self' = __iter__ self /\ __len__ self' = __len__ self
  else
    __iter__ self' = __iter__ self ++ [key] /\ __len__ self' = S (__len__ self).
Proof.
  intros Hd. unfold __setitem__, bind, get, put, raise, __iter__, __len__.
  cbn -[dict.keys dict.len dict.contains dict.set]. rewrite Hd.
  cbn -[dict.keys dict.len dict.contains dict.set].
  assert (Hlen : forall d : dict.t addr, dict.len d = length (dict.keys d)).
  { intros d. unfold dict.len, dict.keys. rewrite length_map. reflexivity. }
  rewrite !Hlen, keys_set.
  destruct (dict.contains key (mapping self)); split; try reflexivity.
  rewrite length_app. cbn. lia.
Qed.

Lemma setitem_order_witness :
  __iter__ (fst (__setitem__ 7 0%nat Examples.collection12)) = [1%Z; 2%Z; 7%Z]
  /\ __iter__ (fst (__setitem__ 1 1%nat Examples.collection12)) = [1%Z; 2%Z].
Proof.
  split.
  - apply (setitem_order Examples.collection12 7 0%nat). reflexivity.
  - apply (setitem_order Examples.collection12 1 1%nat). reflexivity.
Defined.

(** Deleting a key that is bound removes it and nothing else; deleting one
    that is not raises [KeyError]. *)
Theorem delitem_getitem (self : ObstacleList2D.t) (key : Z) :
  NoDup (__iter__ self) ->
  if dict.contains key (mapping self) then
    exists self',
      __delitem__ key self = (self', Ok tt)
      /\ __getitem__ key self' = (self', Raise KeyError)
      /\ S (__len__ self') = __len__ self
      /\ __iter__ self' = filter (fun k => negb (k =? key)%Z) (__iter__ self)
      /\ heap self' = heap self
      /\ forall key', key' <> key ->
           snd (__getitem__ key' self') = snd (__getitem__ key' self)
  else __delitem__ key self = (self, Raise KeyError).
Proof.
  intros Hnd. unfold __delitem__, bind, get, put, raise. cbn.
  destruct (dict.contains key (mapping self)) eqn:Hin; [ | reflexivity].
  eexists. split; [reflexivity | ].
  unfold __getitem__, bind, get, ret, raise, __len__, __iter__. cbn.
  rewrite (lookup_remove_eq key (mapping self) Hnd).
  repeat split.
  - apply length_remove. exact Hin.
  - apply keys_remove. exact Hnd.
  - intros key' Hne. rewrite lookup_remove_ne by exact Hne.
    destruct (dict.lookup key' (mapping self)); reflexivity.
Qed.

Lemma delitem_getitem_witness :
  (exists self',
     __delitem__ 1 Examples.collection12 = (self', Ok tt)
     /\ __getitem__ 1 self' = (self', Raise KeyError))
  /\ __delitem__ 7 Examples.collection12 = (Examples.collection12, Raise KeyError).
Proof.
  assert (Hnd : NoDup (__iter__ Examples.collection12)).
  { repeat constructor; cbn; intuition discriminate. }
  split.
  - destruct (delitem_getitem Examples.collection12 1 Hnd)
      as (self' & Hdel & Hget & _).
    exists self'. split; assumption.
  - exact (delitem_getitem Examples.collection12 7 Hnd).
Defined.

(** [pop] returns the object bound to the key and unbinds it; on a key that
    is not bound it raises [KeyError] and changes nothing. *)
Theorem pop_returns_and_removes (self : ObstacleList2D.t) (key : Z) :
  NoDup (__iter__ self) ->
  match dict.lookup key (mapping self) with
  | Some r =>
      exists self',
        pop key self = (self', Ok r)
        /\ dict.contains key (mapping self') = false
        /\ S (__len__ self') = __len__ self
        /\ heap self' = heap self
  | None => pop key self = (self, Raise KeyError)
  end.
Proof.
  intros Hnd. unfold pop, __getitem__, __delitem__, bind, get, put, ret, raise.
  cbn. destruct (dict.lookup key (mapping self)) as [r | ] eqn:E; [ | reflexivity].
  cbn. unfold dict.contains at 1. rewrite E.
  eexists. split; [reflexivity | ]. cbn. unfold __len__. cbn.
  assert (Hin : dict.contains key (mapping self) = true)
    by (unfold dict.contains; rewrite E; reflexivity).
  repeat split.
  - unfold dict.contains. rewrite (lookup_remove_eq key (mapping self) Hnd).
    reflexivity.
  - apply length_remove. exact Hin.
Qed.

Lemma pop_returns_and_removes_witness :
  (exists self',
     pop 2 Examples.collection12 = (self', Ok 1%nat)
     /\ dict.contains 2 (mapping self') = false)
  /\ pop 7 Examples.collection12 = (Examples.collection12, Raise KeyError).
Proof.
  assert (Hnd : NoDup (__iter__ Examples.collection12)).
  { repeat constructor; cbn; intuition discriminate. }
  split.
  - destruct (pop_returns_and_removes Examples.collection12 2 Hnd)
      as (self' & Hpop & Hgone & _).
    exists self'. split; assumption.
  - exact (pop_returns_and_removes Examples.collection12 7 Hnd).
Defined.

End Mapping.

(** ** Heap and construction *)

Section Heap.

Lemma length_store (r : addr) (o : object) (h : list object) :
  length (store r o h) = length h.
Proof.
  revert r. induction h as [ | x h IH]; intros [ | r]; cbn; try reflexivity.
  rewrite IH. reflexivity.
Qed.

Lemma deref_store_eq (r : addr) (o : object) (h : list object) :
  (r < length h)%nat -> deref (store r o h) r = o.
Proof.
  unfold deref. revert r. induction h as [ | x h IH]; intros [ | r]; cbn;
    try lia; try reflexivity.
  intros H. apply IH. lia.
Qed.

Lemma deref_store_ne (r r' : addr) (o : object) (h : list object) :
  r' <> r -> deref (store r o h) r' = deref h r'.
Proof.
  unfold deref. revert r r'.
  induction h as [ | x h IH]; intros [ | r] [ | r'] Hne; cbn;
    try reflexivity; try congruence.
  apply IH. congruence.
Qed.

Lemma deref_in_range (h : list object) (r : addr) :
  derives_Obstacle2DBase (deref h r) = true -> (r < length h)%nat.
Proof.
  unfold deref. intros H. destruct (Nat.lt_ge_cases r (length h)) as [Hlt | Hge];
    [exact Hlt | ].
  rewrite nth_overflow in H by exact Hge. discriminate.
Qed.

Lemma deref_alloc (h : list object) (o : object) (r : addr) :
  (r < length h)%nat -> deref (h ++ [o]) r = deref h r.
Proof. intros H. unfold deref. apply app_nth1. exact H. Qed.

End Heap.

Section Construction.

Import ObstacleList2D.

Lemma setitem_obstacle (self : ObstacleList2D.t) (key : Z) (value : addr) :
  derives_Obstacle2DBase (deref (heap self) value) = true ->
  __setitem__ key value self
  = (set_mapping (dict.set key value (mapping self)) self, Ok tt).
Proof.
  intros Hd. unfold __setitem__, bind, get, put, raise.
  cbn -[dict.set]. rewrite Hd. reflexivity.
Qed.

Lemma setitem_not_obstacle (self : ObstacleList2D.t) (key : Z) (value : addr) :
  derives_Obstacle2DBase (deref (heap self) value) = false ->
  __setitem__ key value self = (self, Raise TypeError).
Proof.
  intros Hd. unfold __setitem__, bind, get, put, raise.
  cbn -[dict.set]. rewrite Hd. reflexivity.
Qed.

Lemma update_obstacles (data : list (Z * addr)) :
  forall self,
    forallb (fun kv => derives_Obstacle2DBase (deref (heap self) (snd kv))) data
    = true ->
    exists self',
      update data self = (self', Ok tt)
      /\ heap self' = heap self
      /\ (NoDup (__iter__ self) -> NoDup (__iter__ self'))
      /\ (forall k, In k (__iter__ self')
                    <-> In k (__iter__ self) \/ In k (map fst data))
      /\ (Forall (fun r => derives_Obstacle2DBase (deref (heap self) r) = true)
                 (dict.values (mapping self)) ->
          Forall (fun r => derives_Obstacle2DBase (deref (heap self') r) = true)
                 (dict.values (mapping self'))).
Proof.
  induction data as [ | [key value] rest IH]; intros self Hall.
  - exists self. split; [reflexivity | split; [reflexivity | ]].
    split; [intros H; exact H | split; [ | intros H; exact H]].
    intros k. split; [intros H; left; exact H | intros [H | []]; exact H].
  - cbn [forallb snd] in Hall. apply andb_true_iff in Hall.
    destruct Hall as [Hv Hrest].
    pose proof (setitem_obstacle self key value Hv) as E.
    pose proof (setitem_keeps_obstacles self key value) as Hkeep.
    cbv zeta in Hkeep. rewrite E in Hkeep. cbn [fst] in Hkeep.
    set (self1 := set_mapping (dict.set key value (mapping self)) self) in *.
    assert (Hkeys : __iter__ self1
                    = if dict.contains key (mapping self)
                      then __iter__ self else __iter__ self ++ [key])
      by apply keys_set.
    destruct (IH self1 Hrest) as (self' & Hrun & Hh & Hnd & Hin & Hobs).
    exists self'. cbn [update]. unfold bind. rewrite E.
    split; [exact Hrun | ].
    split; [exact Hh | ].
    split; [ | split].
    + intros H. apply Hnd. rewrite Hkeys.
      destruct (dict.contains key (mapping self)) eqn:Ec; [exact H | ].
      apply NoDup_app; [exact H | repeat constructor; intros [] | ].
      intros k Hk [<- | []].
      apply (proj1 (contains_false_In key (mapping self)) Ec). exact Hk.
    + intros k. rewrite Hin, Hkeys. cbn [map fst In].
      destruct (dict.contains key (mapping self)) eqn:Ec.
      * apply contains_In in Ec. fold (__iter__ self) in Ec.
        split; [tauto | ]. intros [H | [<- | H]]; tauto.
      * rewrite in_app_iff. cbn. tauto.
    + intros H. apply Hobs. apply Hkeep. exact H.
Qed.

Lemma update_not_obstacle (data : list (Z * addr)) :
  forall self,
    forallb (fun kv => derives_Obstacle2DBase (deref (heap self) (snd kv))) data
    = false ->
    snd (update data self) = Raise TypeError.
Proof.
  induction data as [ | [key value] rest IH]; intros self Hall.
  - discriminate.
  - cbn [forallb snd] in Hall.
    cbn [update]. unfold bind.
    destruct (derives_Obstacle2DBase (deref (heap self) value)) eqn:Hv.
    + rewrite (setitem_obstacle self key value Hv). apply IH. exact Hall.
    + rewrite (setitem_not_obstacle self key value Hv). reflexivity.
Qed.

(** [ObstacleList2D(data)] returns a collection exactly when every value of
    [data] is an obstacle; the collection then binds the keys of [data] and
    no other, each once, to obstacles.  Otherwise it raises [TypeError]. *)
Theorem init_collection (h : list object) (data : list (Z * addr)) :
  if forallb (fun kv => derives_Obstacle2DBase (deref h (snd kv))) data then
    exists self,
      __init__ h data = Ok self
      /\ heap self = h
      /\ NoDup (__iter__ self)
      /\ (forall k, In k (__iter__ self) <-> In k (map fst data))
      /\ Forall (fun r => derives_Obstacle2DBase (deref h r) = true)
                (dict.values (mapping self))
  else __init__ h data = Raise TypeError.
Proof.
  destruct (forallb _ data) eqn:E.
  - destruct (update_obstacles data (ObstacleList2D.mk h []) E)
      as (self & Hrun & Hh & Hnd & Hin & Hobs).
    exists self. unfold __init__. rewrite Hrun. cbn [heap] in Hh.
    split; [reflexivity | split; [exact Hh | split; [ | split]]].
    + apply Hnd. constructor.
    + intros k. rewrite Hin. cbn. tauto.
    + rewrite <- Hh. apply Hobs. constructor.
  - pose proof (update_not_obstacle data (ObstacleList2D.mk h []) E) as H.
    unfold __init__. destruct (update data (ObstacleList2D.mk h [])) as [s out].
    cbn in H. subst out. reflexivity.
Qed.

End Construction.

(** ** ObstacleList2D: batch evaluation at the edges *)

Section BatchEdges.

Import ObstacleList2D.

(** On an empty collection every batch method returns the empty vector or
    matrix, whatever the argument; on a collection that is not empty (its
    first value an obstacle) an argument that is no [Vector2] is refused
    with [TypeError]. *)
Theorem batch_argument_check (self : ObstacleList2D.t) :
  (mapping self = [] ->
   forall p, f self p = Ok [] /\ dx self p = Ok [] /\ dy self p = Ok []
             /\ dtheta self p = Ok [] /\ gradient self p = Ok [])
  /\ (forall key r rest,
        mapping self = (key, r) :: rest ->
        derives_Obstacle2DBase (deref (heap self) r) = true ->
        f self NotVec = Raise TypeError /\ dx self NotVec = Raise TypeError
        /\ dy self NotVec = Raise TypeError
        /\ dtheta self NotVec = Raise TypeError
        /\ gradient self NotVec = Raise TypeError).
Proof.
  split.
  - intros Hm p. unfold f, dx, dy, dtheta, gradient. rewrite Hm.
    repeat split.
  - intros key r rest Hm Hd. unfold f, dx, dy, dtheta, gradient. rewrite Hm.
    cbn [dict.values map snd fill].
    destruct (deref (heap self) r); [ | | discriminate]; repeat split.
Qed.

Lemma batch_argument_check_witness :
  f MoreExamples.empty_collection NotVec = Ok []
  /\ f Examples.collection12 NotVec = Raise TypeError
  /\ gradient Examples.collection12 NotVec = Raise TypeError.
Proof.
  destruct (batch_argument_check MoreExamples.empty_collection) as (Hempty & _).
  destruct (batch_argument_check Examples.collection12) as (_ & Hfull).
  destruct (Hempty eq_refl NotVec) as (Hf & _).
  destruct (Hfull 1%Z 0%nat [(2%Z, 1%nat)] eq_refl eq_refl)
    as (Hf' & _ & _ & _ & Hg').
  split; [exact Hf | split; [exact Hf' | exact Hg']].
Defined.

End BatchEdges.

(** ** ObstacleList2D: what reconciliation does *)

Section Refresh.

Import ObstacleList2D.

Lemma lookup_In_values {V : Type} (key : Z) (v : V) (d : dict.t V) :
  dict.lookup key d = Some v -> In v (dict.values d).
Proof.
  unfold dict.values. induction d as [ | [k w] rest IH]; cbn; [discriminate | ].
  destruct (k =? key)%Z.
  - intros H. injection H as ->. left. reflexivity.
  - intros H. right. apply IH. exact H.
Qed.

Lemma lookup_In_keys {V : Type} (key : Z) (v : V) (d : dict.t V) :
  dict.lookup key d = Some v -> In key (dict.keys d).
Proof.
  intros H. apply contains_In. unfold dict.contains. rewrite H. reflexivity.
Qed.

Lemma In_lookup {V : Type} (key : Z) (v : V) (d : dict.t V) :
  NoDup (dict.keys d) -> In (key, v) d -> dict.lookup key d = Some v.
Proof.
  unfold dict.keys. induction d as [ | [k w] rest IH]; cbn; [intros _ [] | ].
  intros Hnd [H | H]; inversion Hnd as [ | ? ? Hk Hrest]; subst.
  - injection H as -> ->. rewrite Z.eqb_refl. reflexivity.
  - destruct (k =? key)%Z eqn:E.
    + apply Z.eqb_eq in E. subst k. contradiction Hk.
      apply in_map_iff. exists (key, v). split; [reflexivity | exact H].
    + apply IH; assumption.
Qed.

(** No object under two keys. *)
Lemma lookup_injective {V : Type} (k1 k2 : Z) (v : V) (d : dict.t V) :
  NoDup (dict.values d) ->
  dict.lookup k1 d = Some v -> dict.lookup k2 d = Some v -> k1 = k2.
Proof.
  unfold dict.values. induction d as [ | [k w] rest IH]; cbn; [discriminate | ].
  intros Hnd. inversion Hnd as [ | ? ? Hw Hrest]; subst.
  destruct (k =? k1)%Z eqn:E1, (k =? k2)%Z eqn:E2; intros H1 H2.
  - apply Z.eqb_eq in E1, E2. congruence.
  - injection H1 as ->. contradiction Hw. apply (lookup_In_values k2). exact H2.
  - injection H2 as ->. contradiction Hw. apply (lookup_In_values k1). exact H1.
  - apply IH; assumption.
Qed.

Lemma call_updateByBoundingBox_ellipse (r : addr) (bbox : BoundingBox.t)
    (e : Ellipse2D.t) (self : ObstacleList2D.t) :
  deref (heap self) r = EllipseObj e ->
  call_updateByBoundingBox r bbox self
  = (set_heap (store r (EllipseObj (fst (Ellipse2D.updateByBoundingBox bbox e)))
                 (heap self)) self, Ok tt).
Proof.
  intros Hd. unfold call_updateByBoundingBox, bind, get. rewrite Hd. reflexivity.
Qed.

(** One round of the first loop on a key bound to an ellipse. *)
Lemma update_or_insert_known (carla : bool) (key : Z) (bbox : BoundingBox.t)
    (rest : list (Z * BoundingBox.t)) (obs_type : Z) (buffer : R)
    (r : addr) (e : Ellipse2D.t) (self : ObstacleList2D.t) :
  dict.lookup key (mapping self) = Some r ->
  deref (heap self) r = EllipseObj e ->
  update_or_insert carla ((key, bbox) :: rest) obs_type buffer self
  = update_or_insert carla rest obs_type buffer
      (set_heap (store r (EllipseObj (fst (Ellipse2D.updateByBoundingBox bbox e)))
                   (heap self)) self).
Proof.
  intros Hk Hd. cbn [update_or_insert]. unfold bind at 1. unfold bind at 1.
  unfold get at 1. unfold dict.contains. rewrite Hk.
  unfold bind at 1. unfold __getitem__ at 1. unfold bind at 1, get at 1.
  rewrite Hk. unfold ret at 1.
  rewrite (call_updateByBoundingBox_ellipse r bbox e self Hd). reflexivity.
Qed.

(** The first loop on observations whose keys are all bound to ellipses:
    it returns, the mapping and the size of the heap are as before, each
    observed ellipse is refreshed from its observation and every other
    object is untouched. *)
Lemma update_or_insert_refreshes (carla : bool) (obs_type : Z) (buffer : R)
    (items : list (Z * BoundingBox.t)) :
  forall self,
    NoDup (map fst items) ->
    NoDup (dict.values (mapping self)) ->
    (forall k bb, In (k, bb) items ->
       exists r e, dict.lookup k (mapping self) = Some r
                   /\ deref (heap self) r = EllipseObj e) ->
    exists self',
      update_or_insert carla items obs_type buffer self = (self', Ok tt)
      /\ mapping self' = mapping self
      /\ length (heap self') = length (heap self)
      /\ (forall k bb r e,
            In (k, bb) items -> dict.lookup k (mapping self) = Some r ->
            deref (heap self) r = EllipseObj e ->
            deref (heap self') r
            = EllipseObj (fst (Ellipse2D.updateByBoundingBox bb e)))
      /\ (forall r,
            (forall k, In k (map fst items) ->
                       dict.lookup k (mapping self) <> Some r) ->
            deref (heap self') r = deref (heap self) r).
Proof.
  induction items as [ | [key bbox] rest IH]; intros self Hnd Hinj Hknown.
  - exists self. repeat split; try reflexivity. intros k bb r e [].
  - inversion Hnd as [ | ? ? Hfresh Hnd']; subst.
    destruct (Hknown key bbox (or_introl eq_refl)) as (r & e & Hk & Hd).
    assert (Hr : (r < length (heap self))%nat).
    { apply deref_in_range. rewrite Hd. reflexivity. }
    rewrite (update_or_insert_known carla key bbox rest obs_type buffer r e self Hk Hd).
    set (e1 := fst (Ellipse2D.updateByBoundingBox bbox e)).
    set (self1 := set_heap (store r (EllipseObj e1) (heap self)) self).
    assert (Hother : forall k, In k (map fst rest) ->
                               dict.lookup k (mapping self) <> Some r).
    { intros k Hin Hk'. apply Hfresh.
      rewrite (lookup_injective key k r (mapping self) Hinj Hk Hk'). exact Hin. }
    destruct (IH self1 Hnd' Hinj) as (self' & Hrun & Hm & Hlen & Hnew & Hold).
    { intros k bb Hin.
      destruct (Hknown k bb (or_intror Hin)) as (r' & e' & Hk' & Hd').
      exists r'. destruct (Nat.eq_dec r' r) as [-> | Hne].
      - exists e1. split; [exact Hk' | ]. apply deref_store_eq. exact Hr.
      - exists e'. split; [exact Hk' | ].
        cbn [heap self1 set_heap]. rewrite deref_store_ne by exact Hne. exact Hd'. }
    exists self'. split; [exact Hrun | ].
    split; [exact Hm | ].
    split; [rewrite Hlen; apply length_store | ].
    split.
    + intros k bb r0 e0 [Heq | Hin] Hk0 Hd0.
      * injection Heq as <- <-.
        assert (r0 = r) by congruence. subst r0.
        assert (e0 = e) by congruence. subst e0.
        rewrite (Hold r Hother). apply deref_store_eq. exact Hr.
      * assert (Hne : r0 <> r).
        { intros ->. apply (Hother k); [ | exact Hk0].
          apply in_map_iff. exists (k, bb). split; [reflexivity | exact Hin]. }
        apply (Hnew k bb r0 e0 Hin Hk0).
        cbn [heap self1 set_heap]. rewrite deref_store_ne by exact Hne. exact Hd0.
    + intros r0 Hnone.
      rewrite Hold by (intros k Hin; apply Hnone; right; exact Hin).
      cbn [heap self1 set_heap]. apply deref_store_ne.
      intros ->. apply (Hnone key); [left; reflexivity | exact Hk].
Qed.

End Refresh.

Section Reconcile.

Import ObstacleList2D.

(** When the observation has exactly the keys of the collection, all bound
    to ellipses (no ellipse under two keys), the call returns: no key is
    added or removed, no object is created, and the ellipse under each key
    has the pose and extent of its observation, its buffer and flag as
    before.  This holds whether or not [carla] is bound. *)
Theorem updateByBoundingBox_same_keys (carla : bool)
    (obs_dict : dict.t BoundingBox.t) (obs_type : Z) (buffer : R)
    (self : ObstacleList2D.t) :
  NoDup (dict.keys obs_dict) ->
  NoDup (dict.values (mapping self)) ->
  (forall k, In k (dict.keys obs_dict) ->
     exists r e, dict.lookup k (mapping self) = Some r
                 /\ deref (heap self) r = EllipseObj e) ->
  (forall k, In k (__iter__ self) -> In k (dict.keys obs_dict)) ->
  exists self',
    updateByBoundingBox carla (Some obs_dict) obs_type buffer self = (self', Ok tt)
    /\ mapping self' = mapping self
    /\ length (heap self') = length (heap self)
    /\ forall k bb r e,
         dict.lookup k obs_dict = Some bb ->
         dict.lookup k (mapping self) = Some r ->
         deref (heap self) r = EllipseObj e ->
         deref (heap self') r
         = EllipseObj
             (Ellipse2D.mk
                (Vector2.mk (BoundingBox.location_x bb) (BoundingBox.location_y bb))
                (BoundingBox.rotation_yaw bb)
                (BoundingBox.extent_x bb) (BoundingBox.extent_y bb)
                (Ellipse2D.buffer e) (Ellipse2D.BUFFER_FLAG e)).
Proof.
  intros Hnd Hinj Hknown Hall.
  destruct (update_or_insert_refreshes carla obs_type buffer (dict.items obs_dict)
              self Hnd Hinj) as (mid & Hrun & Hm & Hlen & Hnew & _).
  { intros k bb Hin. apply Hknown. unfold dict.keys. apply in_map_iff.
    exists (k, bb). split; [reflexivity | exact Hin]. }
  exists mid. cbn [updateByBoundingBox]. unfold bind at 1. rewrite Hrun.
  unfold bind at 1, get at 1.
  rewrite remove_vanished_nothing.
  - split; [reflexivity | split; [exact Hm | split; [exact Hlen | ]]].
    intros k bb r e Hobs Hk Hd.
    assert (Hin : In (k, bb) (dict.items obs_dict)).
    { clear - Hobs. unfold dict.items.
      induction obs_dict as [ | [k' w] rest IH]; cbn in *; [discriminate | ].
      destruct (k' =? k)%Z eqn:E.
      - apply Z.eqb_eq in E. injection Hobs as ->. left. congruence.
      - right. apply IH. exact Hobs. }
    rewrite (Hnew k bb r e Hin Hk Hd). reflexivity.
  - intros k Hk. apply contains_In. apply Hall. unfold __iter__.
    rewrite <- Hm. exact Hk.
Qed.

(** Both obstacles of [collection12] observed: the call returns and
    obstacle 1 has the pose and extent of [bbox1]. *)
Lemma updateByBoundingBox_same_keys_witness :
  exists self',
    updateByBoundingBox carla_bound (Some MoreExamples.observations12)
      default_obs_type default_buffer Examples.collection12 = (self', Ok tt)
    /\ __iter__ self' = [1%Z; 2%Z]
    /\ deref (heap self') 0%nat
       = EllipseObj (Ellipse2D.mk (Vector2.mk 7 8) 0 2 1 (5 / 10) true).
Proof.
  destruct (updateByBoundingBox_same_keys carla_bound MoreExamples.observations12
              default_obs_type default_buffer Examples.collection12)
    as (self' & Hrun & Hm & _ & Hobj).
  - repeat constructor; cbn; intuition discriminate.
  - repeat constructor; cbn; intuition discriminate.
  - intros k [<- | [<- | []]]; eexists _, _; split; reflexivity.
  - intros k Hk. exact Hk.
  - exists self'. split; [exact Hrun | split].
    + unfold __iter__. rewrite Hm. reflexivity.
    + apply (Hobj 1%Z MoreExamples.bbox1 0%nat Examples.obstacle1);
        reflexivity.
Defined.

(** An instance of [Obstacle2DBase] itself can be stored, but has no
    [updateByBoundingBox]: when the first observed key is bound to one, the
    call raises [AttributeError] and the collection is as before. *)
Theorem updateByBoundingBox_base_object (carla : bool) (key : Z)
    (bbox : BoundingBox.t) (rest : dict.t BoundingBox.t) (obs_type : Z)
    (buffer : R) (r : addr) (self : ObstacleList2D.t) :
  dict.lookup key (mapping self) = Some r ->
  deref (heap self) r = BaseObj ->
  (exists self', __setitem__ key r self = (self', Ok tt))
  /\ updateByBoundingBox carla (Some ((key, bbox) :: rest)) obs_type buffer self
     = (self, Raise AttributeError).
Proof.
  intros Hk Hd. split.
  - eexists. apply setitem_obstacle. rewrite Hd. reflexivity.
  - cbn [updateByBoundingBox dict.items update_or_insert].
    unfold bind at 1. unfold bind at 1. unfold bind at 1. unfold get at 1.
    unfold dict.contains. rewrite Hk.
    unfold bind at 1. unfold __getitem__ at 1. unfold bind at 1, get at 1.
    rewrite Hk. unfold ret at 1.
    unfold call_updateByBoundingBox, bind, get. rewrite Hd. reflexivity.
Qed.

Lemma updateByBoundingBox_base_object_witness :
  updateByBoundingBox carla_bound (Some MoreExamples.observations12)
    default_obs_type default_buffer MoreExamples.collection_with_base
  = (MoreExamples.collection_with_base, Raise AttributeError).
Proof.
  apply (updateByBoundingBox_base_object carla_bound 1 MoreExamples.bbox1
           [(2%Z, Examples.bbox2)] default_obs_type default_buffer 0%nat
           MoreExamples.collection_with_base); reflexivity.
Defined.

(** With a selector other than [ELLIPSE2D], observed keys that are new are
    skipped without a word: on an empty collection the call returns and the
    collection is still empty, whatever is observed. *)
Lemma update_or_insert_unknown_type (carla : bool) (obs_type : Z) (buffer : R)
    (items : list (Z * BoundingBox.t)) (self : ObstacleList2D.t) :
  obs_type <> ELLIPSE2D ->
  (forall k bb, In (k, bb) items -> dict.contains k (mapping self) = false) ->
  update_or_insert carla items obs_type buffer self = (self, Ok tt).
Proof.
  intros Ht. induction items as [ | [key bbox] rest IH]; intros Hnew.
  - reflexivity.
  - cbn [update_or_insert]. unfold bind at 1. unfold bind at 1. unfold get at 1.
    rewrite (Hnew key bbox) by (left; reflexivity).
    apply Z.eqb_neq in Ht. rewrite Ht. unfold ret at 1.
    apply IH. intros k bb Hin. apply (Hnew k bb). right. exact Hin.
Qed.

Theorem updateByBoundingBox_unknown_type (carla : bool)
    (obs_dict : dict.t BoundingBox.t) (obs_type : Z) (buffer : R)
    (self : ObstacleList2D.t) :
  obs_type <> ELLIPSE2D ->
  mapping self = [] ->
  updateByBoundingBox carla (Some obs_dict) obs_type buffer self = (self, Ok tt).
Proof.
  intros Ht Hm. cbn [updateByBoundingBox]. unfold bind at 1.
  rewrite update_or_insert_unknown_type.
  - unfold bind at 1, get at 1. apply remove_vanished_nothing.
    rewrite Hm. intros k [].
  - exact Ht.
  - intros k bb _. rewrite Hm. reflexivity.
Qed.

Lemma updateByBoundingBox_unknown_type_witness :
  updateByBoundingBox true (Some Examples.observations23) 1 default_buffer
    MoreExamples.empty_collection
  = (MoreExamples.empty_collection, Ok tt).
Proof.
  apply (updateByBoundingBox_unknown_type true Examples.observations23 1
           default_buffer MoreExamples.empty_collection);
    [discriminate | reflexivity].
Defined.

End Reconcile.

(** ** ObstacleList2D: every value stays an obstacle *)

Section ObstaclesOnly.

Import ObstacleList2D Invariant.

Lemma keeps_ret {A : Type} (P : ObstacleList2D.t -> Prop) (v : A) :
  keeps P (ret v).
Proof. intros self H. exact H. Qed.

Lemma keeps_raise {A : Type} (P : ObstacleList2D.t -> Prop) (e : exn) :
  keeps P (@raise _ A e).
Proof. intros self H. exact H. Qed.

Lemma keeps_lift {A : Type} (P : ObstacleList2D.t -> Prop) (r : res A) :
  keeps P (lift r).
Proof. intros self H. exact H. Qed.

Lemma keeps_get (P : ObstacleList2D.t -> Prop) : keeps P get.
Proof. intros self H. exact H. Qed.

Lemma keeps_bind {A B : Type} (P : ObstacleList2D.t -> Prop)
    (m : M ObstacleList2D.t A) (k : A -> M ObstacleList2D.t B) :
  keeps P m -> (forall v, keeps P (k v)) -> keeps P (bind m k).
Proof.
  intros Hm Hk self H. unfold bind. specialize (Hm self H).
  destruct (m self) as [self' [v | e]]; cbn [fst] in *.
  - apply Hk. exact Hm.
  - exact Hm.
Qed.

Lemma keeps_getitem (P : ObstacleList2D.t -> Prop) (key : Z) :
  keeps P (__getitem__ key).
Proof.
  apply keeps_bind; [apply keeps_get | intros self].
  destruct (dict.lookup key (mapping self)); [apply keeps_ret | apply keeps_raise].
Qed.

Lemma keeps_setitem (key : Z) (value : addr) :
  keeps obstacles_only (__setitem__ key value).
Proof. intros self H. apply (setitem_keeps_obstacles self key value H). Qed.

Lemma values_remove {V : Type} (key : Z) (w : V) (d : dict.t V) :
  In w (dict.values (dict.remove key d)) -> In w (dict.values d).
Proof.
  unfold dict.values. induction d as [ | [k u] rest IH]; cbn; [intros [] | ].
  destruct (k =? key)%Z; cbn.
  - intros H. right. exact H.
  - intros [H | H]; [left; exact H | right; apply IH; exact H].
Qed.

Lemma keeps_delitem (key : Z) : keeps obstacles_only (__delitem__ key).
Proof.
  intros self H. unfold __delitem__, bind, get, put, raise. cbn -[dict.remove].
  destruct (dict.contains key (mapping self)); [ | exact H].
  unfold obstacles_only in *. cbn -[dict.remove].
  apply Forall_forall. intros r Hr. apply values_remove in Hr.
  revert r Hr. apply Forall_forall. exact H.
Qed.

Lemma keeps_pop (key : Z) : keeps obstacles_only (pop key).
Proof.
  apply keeps_bind; [apply keeps_getitem | intros value].
  apply keeps_bind; [apply keeps_delitem | intros _; apply keeps_ret].
Qed.

Lemma keeps_alloc (e : Ellipse2D.t) : keeps obstacles_only (alloc (EllipseObj e)).
Proof.
  intros self H. unfold obstacles_only in *. unfold alloc.
  cbn [fst heap mapping set_heap].
  apply Forall_forall. intros r Hr.
  assert (Hd : derives_Obstacle2DBase (deref (heap self) r) = true).
  { revert r Hr. apply Forall_forall. exact H. }
  rewrite deref_alloc by (apply deref_in_range; exact Hd). exact Hd.
Qed.

Lemma keeps_call_updateByBoundingBox (r : addr) (bbox : BoundingBox.t) :
  keeps obstacles_only (call_updateByBoundingBox r bbox).
Proof.
  intros self H. unfold call_updateByBoundingBox, bind, get, put, raise, lift.
  destruct (deref (heap self) r) as [ | e | ] eqn:Hd; try exact H.
  unfold obstacles_only in *.
  cbn [Ellipse2D.updateByBoundingBox fst snd heap mapping set_heap].
  change (Forall
    (fun r0 => derives_Obstacle2DBase
       (deref (store r (EllipseObj (fst (Ellipse2D.updateByBoundingBox bbox e)))
                 (heap self)) r0) = true)
    (dict.values (mapping self))).
  apply Forall_forall. intros r0 Hr0.
  assert (Hd0 : derives_Obstacle2DBase (deref (heap self) r0) = true).
  { revert r0 Hr0. apply Forall_forall. exact H. }
  destruct (Nat.eq_dec r0 r) as [-> | Hne].
  - rewrite deref_store_eq by (apply deref_in_range; exact Hd0). reflexivity.
  - rewrite deref_store_ne by exact Hne. exact Hd0.
Qed.

Lemma keeps_update_or_insert (carla : bool) (items : list (Z * BoundingBox.t))
    (obs_type : Z) (buffer : R) :
  keeps obstacles_only (update_or_insert carla items obs_type buffer).
Proof.
  induction items as [ | [key bbox] rest IH]; cbn [update_or_insert].
  - apply keeps_ret.
  - apply keeps_bind; [ | intros _; exact IH].
    apply keeps_bind; [apply keeps_get | intros self].
    destruct (dict.contains key (mapping self)).
    + apply keeps_bind; [apply keeps_getitem | intros r].
      apply keeps_call_updateByBoundingBox.
    + destruct (obs_type =? ELLIPSE2D)%Z; [ | apply keeps_ret].
      apply keeps_bind; [apply keeps_lift | intros e].
      apply keeps_bind; [apply keeps_alloc | intros r].
      apply keeps_setitem.
Qed.

Lemma keeps_remove_vanished (obs_dict : dict.t BoundingBox.t) (todo : list Z)
    (used : nat) :
  keeps obstacles_only (remove_vanished obs_dict todo used).
Proof.
  induction todo as [ | key rest IH]; cbn [remove_vanished];
    (apply keeps_bind; [apply keeps_get | intros self]);
    destruct (negb (dict.len (mapping self) =? used)%nat);
    try apply keeps_raise; try apply keeps_ret.
  apply keeps_bind; [ | intros _; exact IH].
  destruct (negb (dict.contains key obs_dict)); [ | apply keeps_ret].
  apply keeps_bind; [apply keeps_pop | intros _; apply keeps_ret].
Qed.

Lemma keeps_update (data : list (Z * addr)) : keeps obstacles_only (update data).
Proof.
  induction data as [ | [key value] rest IH]; cbn [update].
  - apply keeps_ret.
  - apply keeps_bind; [apply keeps_setitem | intros _; exact IH].
Qed.

(** Whatever is done to a collection through its methods, whether the call
    returns or raises, every value of the mapping is still an obstacle
    afterwards; so the batch methods never meet an object without [f]. *)
Theorem obstacles_only_kept (self : ObstacleList2D.t) :
  obstacles_only self ->
  (forall key value, obstacles_only (fst (__setitem__ key value self)))
  /\ (forall key, obstacles_only (fst (__delitem__ key self)))
  /\ (forall key, obstacles_only (fst (pop key self)))
  /\ (forall data, obstacles_only (fst (update data self)))
  /\ (forall carla obs_dict obs_type buffer,
        obstacles_only
          (fst (updateByBoundingBox carla obs_dict obs_type buffer self))).
Proof.
  intros H. repeat split; intros.
  - apply keeps_setitem. exact H.
  - apply keeps_delitem. exact H.
  - apply keeps_pop. exact H.
  - apply keeps_update. exact H.
  - destruct obs_dict as [obs | ]; cbn [updateByBoundingBox]; [ | exact H].
    revert self H. apply keeps_bind; [apply keeps_update_or_insert | intros _].
    apply keeps_bind; [apply keeps_get | intros self'].
    apply keeps_remove_vanished.
Qed.

Lemma obstacles_only_kept_witness :
  obstacles_only
    (fst (updateByBoundingBox true (Some Examples.observations23)
            default_obs_type default_buffer Examples.collection12))
  /\ obstacles_only (fst (__setitem__ 7 2%nat Examples.collection_with_other)).
Proof.
  assert (H12 : obstacles_only Examples.collection12) by (repeat constructor).
  assert (Hwo : obstacles_only Examples.collection_with_other)
    by (repeat constructor).
  split.
  - apply (obstacles_only_kept Examples.collection12 H12).
  - apply (obstacles_only_kept Examples.collection_with_other Hwo).
Defined.

End ObstaclesOnly.

(** ** ObstacleList2D: reconciliation never removes a key *)

Section NeverRemoves.

Import ObstacleList2D Invariant.

Lemma keeps_key_setitem (k key : Z) (value : addr) :
  keeps (has_key k) (__setitem__ key value).
Proof.
  intros self H. unfold has_key, __setitem__, bind, get, put, raise in *.
  cbn -[dict.keys dict.set].
  destruct (negb (derives_Obstacle2DBase (deref (heap self) value)));
    cbn -[dict.keys dict.set]; [exact H | ].
  rewrite keys_set. destruct (dict.contains key (mapping self)); [exact H | ].
  apply in_or_app. left. exact H.
Qed.

Lemma keeps_key_alloc (k : Z) (o : object) : keeps (has_key k) (alloc o).
Proof. intros self H. exact H. Qed.

Lemma keeps_key_call_updateByBoundingBox (k : Z) (r : addr) (bbox : BoundingBox.t) :
  keeps (has_key k) (call_updateByBoundingBox r bbox).
Proof.
  intros self H. unfold call_updateByBoundingBox, bind, get, put, raise, lift.
  destruct (deref (heap self) r); exact H.
Qed.

Lemma keeps_key_update_or_insert (k : Z) (carla : bool)
    (items : list (Z * BoundingBox.t)) (obs_type : Z) (buffer : R) :
  keeps (has_key k) (update_or_insert carla items obs_type buffer).
Proof.
  induction items as [ | [key bbox] rest IH]; cbn [update_or_insert].
  - apply keeps_ret.
  - apply keeps_bind; [ | intros _; exact IH].
    apply keeps_bind; [apply keeps_get | intros self].
    destruct (dict.contains key (mapping self)).
    + apply keeps_bind; [apply keeps_getitem | intros r].
      apply keeps_key_call_updateByBoundingBox.
    + destruct (obs_type =? ELLIPSE2D)%Z; [ | apply keeps_ret].
      apply keeps_bind; [apply keeps_lift | intros e].
      apply keeps_bind; [apply keeps_key_alloc | intros r].
      apply keeps_key_setitem.
Qed.

(** When the removal loop returns, every key it visited is observed. *)
Lemma remove_vanished_returns_observed (obs_dict : dict.t BoundingBox.t)
    (todo : list Z) (self self' : ObstacleList2D.t) :
  remove_vanished obs_dict todo (dict.len (mapping self)) self = (self', Ok tt) ->
  forall k, In k todo -> dict.contains k obs_dict = true.
Proof.
  induction todo as [ | key rest IH];
    rewrite remove_vanished_step, Nat.eqb_refl; cbn [negb].
  - intros _ k [].
  - destruct (dict.contains key obs_dict) eqn:Hobs; cbn [negb].
    + intros H k [<- | Hk]; [exact Hobs | apply (IH H k Hk)].
    + destruct (dict.contains key (mapping self)) eqn:Hin.
      * destruct (pop_present key self Hin) as [r ->].
        rewrite remove_vanished_step. cbn [mapping set_mapping].
        replace (dict.len (dict.remove key (mapping self))
                 =? dict.len (mapping self))%nat with false; [discriminate | ].
        symmetry. apply Nat.eqb_neq.
        pose proof (length_remove key (mapping self) Hin). lia.
      * unfold pop, __getitem__, bind, get, raise. unfold dict.contains in Hin.
        destruct (dict.lookup key (mapping self)); discriminate.
Qed.

(** Whether or not [carla] is bound, a call of [updateByBoundingBox] with an
    observation that returns has removed no key, and every key of the
    collection is then an observed one: a collection with a key that is not
    observed makes the call raise. *)
Theorem updateByBoundingBox_never_removes (carla : bool)
    (obs_dict : dict.t BoundingBox.t) (obs_type : Z) (buffer : R)
    (self self' : ObstacleList2D.t) :
  updateByBoundingBox carla (Some obs_dict) obs_type buffer self = (self', Ok tt) ->
  (forall k, In k (__iter__ self) -> In k (__iter__ self'))
  /\ (forall k, In k (__iter__ self') -> In k (dict.keys obs_dict)).
Proof.
  cbn [updateByBoundingBox]. unfold bind at 1.
  pose proof (fun k => keeps_key_update_or_insert k carla (dict.items obs_dict)
                         obs_type buffer self) as Hkeys.
  destruct (update_or_insert carla (dict.items obs_dict) obs_type buffer self)
    as [mid [[] | err]]; [ | discriminate].
  cbn [fst] in Hkeys. unfold bind at 1, get at 1. intros H.
  pose proof (remove_vanished_returns_observed obs_dict _ mid self' H) as Hobs.
  apply remove_vanished_returns in H. subst self'. split.
  - intros k Hk. apply (Hkeys k). exact Hk.
  - intros k Hk. apply contains_In. apply Hobs. exact Hk.
Qed.

Lemma updateByBoundingBox_never_removes_witness :
  exists self',
    updateByBoundingBox true (Some MoreExamples.observations12)
      default_obs_type default_buffer Examples.collection12 = (self', Ok tt)
    /\ (forall k, In k (__iter__ Examples.collection12) -> In k (__iter__ self'))
    /\ (forall k, In k (__iter__ self') -> In k [1%Z; 2%Z]).
Proof.
  eexists. split; [reflexivity | ].
  apply (updateByBoundingBox_never_removes true MoreExamples.observations12
           default_obs_type default_buffer Examples.collection12).
  reflexivity.
Defined.

(** The collection with keys 1 and 2, both observed, as the module is
    written: the call returns and the mapping is the one before. *)
Lemma updateByBoundingBox_returns_same_keys_witness :
  exists self',
    updateByBoundingBox carla_bound (Some MoreExamples.observations12)
      default_obs_type default_buffer Examples.collection12 = (self', Ok tt)
    /\ mapping self' = mapping Examples.collection12.
Proof.
  eexists. split; [reflexivity | ].
  apply (updateByBoundingBox_returns_same_keys (Some MoreExamples.observations12)
           default_obs_type default_buffer Examples.collection12).
  reflexivity.
Defined.

End NeverRemoves.

(** ** Ellipse2D.fromBoundingBox *)

Section FromBoundingBox.

Open Scope R_scope.


End FromBoundingBox.
